(** * geopy.adapters: the HTTP adapters of geopy, embedded and verified

    The development follows [geopy/adapters.py].  The Python standard
    library and [requests] are not part of the repository: what the
    adapters call there (the opener, the codec table, the JSON parser, the
    session) is taken as a parameter of the section that embeds the
    adapter, and the adapters' own code is translated line by line. *)

From Stdlib Require Import ZArith List String Ascii Bool Lia.
From Stdlib Require Import Init.Byte.
From stdpp Require Import base option list gmap strings sorting.

Local Open Scope string_scope.
Local Open Scope Z_scope.

(** ** Python values the adapters compute with *)

Module Py.

(** [p] is a prefix of [s]. *)
Fixpoint startswith (p s : string) : bool :=
  match p, s with
  | EmptyString, _ => true
  | String _ _, EmptyString => false
  | String a p', String b s' => Ascii.eqb a b && startswith p' s'
  end.

(** Python's [needle in hay] on strings. *)
Fixpoint str_in (needle hay : string) : bool :=
  startswith needle hay ||
  match hay with
  | EmptyString => false
  | String _ hay' => str_in needle hay'
  end.

(** Python's [s.split(sep)] for a one-character separator: never the
    empty list, [''.split('.')] is [['']]. *)
Fixpoint split (sep : ascii) (s : string) : list string :=
  match s with
  | EmptyString => [EmptyString]
  | String c s' =>
      if Ascii.eqb c sep then EmptyString :: split sep s'
      else match split sep s' with
           | h :: t => String c h :: t
           | [] => [String c EmptyString]
           end
  end.

(** Truth value of a string: the empty string is false. *)
Definition truthy (s : string) : bool :=
  match s with EmptyString => false | String _ _ => true end.

(** [int(s)] on ASCII text, base 10: surrounding whitespace is dropped,
    one sign is allowed, digits may be grouped by single underscores.
    [None] stands for the [ValueError] that [int] raises. *)
Definition is_space (c : ascii) : bool :=
  let n := N_of_ascii c in
  ((9 <=? n) && (n <=? 13) || (28 <=? n) && (n <=? 32))%N.

Definition digit_of (c : ascii) : option Z :=
  let n := N_of_ascii c in
  if ((48 <=? n) && (n <=? 57))%N then Some (Z.of_N n - 48) else None.

Fixpoint lstrip (l : list ascii) : list ascii :=
  match l with
  | c :: l' => if is_space c then lstrip l' else l
  | [] => []
  end.

Definition strip (l : list ascii) : list ascii :=
  rev (lstrip (rev (lstrip l))).

Fixpoint digits (l : list ascii) (acc : Z) (after_digit : bool) : option Z :=
  match l with
  | [] => if after_digit then Some acc else None
  | c :: l' =>
      if Ascii.eqb c "_"%char
      then (if after_digit then digits l' acc false else None)
      else match digit_of c with
           | Some d => digits l' (10 * acc + d) true
           | None => None
           end
  end.

Definition int (s : string) : option Z :=
  match strip (list_ascii_of_string s) with
  | c :: l =>
      if Ascii.eqb c "+"%char then digits l 0 false
      else if Ascii.eqb c "-"%char then Z.opp <$> digits l 0 false
      else digits (c :: l) 0 false
  | [] => None
  end.

(** Python's [<] on tuples of integers: the first position where the
    tuples differ decides; when one is a prefix of the other, the
    shorter one is the smaller. *)
Fixpoint tuple_lt (xs ys : list Z) : bool :=
  match xs, ys with
  | [], [] => false
  | [], _ :: _ => true
  | _ :: _, [] => false
  | x :: xs', y :: ys' => if x =? y then tuple_lt xs' ys' else x <? y
  end.

(** Python's [s.lower()] on ASCII text: the letters [A] to [Z] become
    [a] to [z], every other character stays. *)
Definition lower_char (c : ascii) : ascii :=
  let n := nat_of_ascii c in
  if ((65 <=? n) && (n <=? 90))%nat then ascii_of_nat (n + 32) else c.

Fixpoint lower (s : string) : string :=
  match s with
  | EmptyString => EmptyString
  | String c s' => String (lower_char c) (lower s')
  end.

(** [s[s.find(c) + 1:]] for a character [c]: what follows the first
    [c]; [find] gives -1 when [c] does not occur, and the slice is then
    the whole of [s]. *)
Fixpoint after_first (c : ascii) (s : string) : option string :=
  match s with
  | EmptyString => None
  | String a s' => if Ascii.eqb a c then Some s' else after_first c s'
  end.

Definition from_find (c : ascii) (s : string) : string :=
  match after_first c s with
  | Some rest => rest
  | None => s
  end.

End Py.

(** ** Exceptions and results *)

(** The classes the adapters test with [isinstance] or name in an
    [except] clause, and a few more that the libraries raise. *)
Inductive PyClass :=
  | URLError              (* urllib.error.URLError *)
  | SocketTimeout         (* socket.timeout *)
  | SSLError              (* ssl.SSLError *)
  | ValueError
  | LookupError
  | ImportError
  | requests_ConnectionError
  | requests_Timeout
  | OtherClass (name : string).

#[global] Instance PyClass_eq_dec : EqDecision PyClass.
Proof. solve_decision. Defined.

(** What [urlopen] hands over for a response: the charset of the
    content-type header ([headers.get_content_charset()]), the body that
    [read()] returns ([None] when [read()] raises), and the status code. *)
Record Page := {
  page_charset : option string;
  page_read : option (list byte);
  page_code : Z
}.

(** An exception raised by library code.  [exc_args] holds the [str()] of
    each element of [error.args], [exc_str] is [str(error)].  An
    [HTTPError] is a response as well: it carries the page. *)
Inductive PyExc :=
  | HTTPError (args : list string) (str : string) (fp : Page)
  | Exc (mro : list PyClass) (args : list string) (str : string).

Definition exc_args (e : PyExc) : list string :=
  match e with HTTPError a _ _ => a | Exc _ a _ => a end.

Definition exc_str (e : PyExc) : string :=
  match e with HTTPError _ s _ => s | Exc _ _ s => s end.

(** [isinstance(e, c)]; [HTTPError] is a subclass of [URLError]. *)
Definition isinstance (e : PyExc) (c : PyClass) : bool :=
  match e with
  | HTTPError _ _ _ => bool_decide (c = URLError)
  | Exc mro _ _ => bool_decide (c ∈ mro)
  end.

Definition is_HTTPError (e : PyExc) : bool :=
  match e with HTTPError _ _ _ => true | Exc _ _ _ => false end.

(** The result of a library call. *)
Inductive PyResult (A : Type) :=
  | Ok (a : A)
  | Exn (e : PyExc).
Arguments Ok {A} a.
Arguments Exn {A} e.

(** geopy's own errors ([geopy.exc] and [AdapterHTTPError]). *)
Inductive GeopyError :=
  | GeocoderTimedOut (message : string)
  | GeocoderUnavailable (message : string)
  | GeocoderServiceError (message : string)
  | GeocoderParseError (message : string)
  | AdapterHTTPError (message : string) (status_code : Z) (text : option string).

(** The outcome of an adapter method: a value, one of geopy's errors, or a
    library exception that no clause of the method caught. *)
Inductive Outcome (A : Type) :=
  | Returns (a : A)
  | Raises (e : GeopyError)
  | Propagates (e : PyExc).
Arguments Returns {A} a.
Arguments Raises {A} e.
Arguments Propagates {A} e.

Definition bind {A B} (o : Outcome A) (k : A -> Outcome B) : Outcome B :=
  match o with
  | Returns a => k a
  | Raises e => Raises e
  | Propagates e => Propagates e
  end.

(** A parsed JSON document. *)
#[warnings="-register-all"]
Inductive Json :=
  | JNull
  | JBool (b : bool)
  | JNumber (literal : string)
  | JString (s : string)
  | JArray (items : list Json)
  | JObject (members : list (string * Json)).

(** An [ssl.SSLContext] is shared by reference: the model keeps its identity. *)
Definition SSLContext := positive.

Definition Headers := list (string * string).
Abbreviation Proxies := (gmap string string).

(** ** URLLibAdapter *)

Module URLLibAdapter.

(** [urllib.request.Request(url=url, headers=headers)]. *)
Record Request := { req_url : string; req_headers : Headers }.

(** The handlers of an opener.  A [ProxyHandler] holds [self.proxies],
    the mapping it serves. *)
Inductive Handler :=
  | HTTPSHandler (context : option SSLContext)
  | ProxyHandler (proxies : Proxies)
  | OtherHandler (name : string).

(** [ProxyHandler(proxies)], from [urllib.request]: built without a
    mapping, the handler takes the proxies of the environment,
    [if proxies is None: proxies = getproxies()]; [env] is what
    [getproxies()] gives. *)
Definition new_ProxyHandler (env : Proxies) (proxies : option Proxies) : Handler :=
  ProxyHandler (default env proxies).

(** The methods [ProxyHandler.__init__] gives the instance, one for
    each key of the mapping: [setattr(self, '%s_open' % type.lower(), ..)]. *)
Definition proxy_methods (proxies : Proxies) : list string :=
  (fun item : string * string => Py.lower item.1 +:+ "_open")
    <$> map_to_list proxies.

(** The test of [OpenerDirector.add_handler] on a method name: the three
    names it passes over, then the part after the first underscore, which
    has to start with [error] or to be [open], [response] or [request]. *)
Definition registers (meth : string) : bool :=
  if bool_decide (meth ∈ ["redirect_request"; "do_open"; "proxy_open"])
  then false
  else
    let condition := Py.from_find "_" meth in
    Py.startswith "error" condition
    || bool_decide (condition ∈ ["open"; "response"; "request"]).

(** [added] at the end of [OpenerDirector.add_handler]: whether a method
    of the handler was registered.  Every handler class of the library
    has a method that is ([https_open], [http_error_default],
    [http_response], ..) but [ProxyHandler], whose own methods
    ([proxy_open], [add_parent], [close]) are not: it has the methods of
    its mapping only. *)
Definition added (handler : Handler) : bool :=
  match handler with
  | HTTPSHandler _ => true
  | ProxyHandler proxies => existsb registers (proxy_methods proxies)
  | OtherHandler _ => true
  end.

(** The class attribute [handler_order]. *)
Definition handler_order (h : Handler) : Z :=
  match h with
  | ProxyHandler _ => 100
  | HTTPSHandler _ => 500
  | OtherHandler name =>
      if bool_decide (name = "HTTPErrorProcessor") then 1000 else 500
  end.

(** [bisect.insort(self.handlers, handler)]; [BaseHandler.__lt__]
    compares the [handler_order]. *)
Fixpoint insort (handler : Handler) (handlers : list Handler) : list Handler :=
  match handlers with
  | [] => [handler]
  | h :: rest =>
      if handler_order handler <? handler_order h
      then handler :: handlers
      else h :: insort handler rest
  end.

(** [OpenerDirector.add_handler]: a handler none of whose methods was
    registered is left out. *)
Definition add_handler (handler : Handler) (handlers : list Handler) : list Handler :=
  if added handler then insort handler handlers else handlers.

Definition same_class (h1 h2 : Handler) : bool :=
  match h1, h2 with
  | HTTPSHandler _, HTTPSHandler _ => true
  | ProxyHandler _, ProxyHandler _ => true
  | OtherHandler n1, OtherHandler n2 => bool_decide (n1 = n2)
  | _, _ => false
  end.

(** The [default_classes] of [build_opener], each built without
    arguments. *)
Definition default_handlers (env : Proxies) : list Handler :=
  [ new_ProxyHandler env None; OtherHandler "UnknownHandler";
    OtherHandler "HTTPHandler"; OtherHandler "HTTPDefaultErrorHandler";
    OtherHandler "HTTPRedirectHandler"; OtherHandler "FTPHandler";
    OtherHandler "FileHandler"; OtherHandler "HTTPErrorProcessor";
    OtherHandler "DataHandler"; HTTPSHandler None ].

(** [urllib.request.build_opener] applied to [handlers]: a default class
    is skipped when a handler of its class is given; the defaults left,
    then the given handlers, go through [add_handler].  The result is
    [opener.handlers]. *)
Definition build_opener (env : Proxies) (handlers : list Handler) : list Handler :=
  let defaults :=
    filter (fun d => existsb (same_class d) handlers = false)
      (default_handlers env) in
  foldl (fun opener h => add_handler h opener) [] (defaults ++ handlers)%list.

Definition is_handler (name : string) (h : Handler) : bool :=
  same_class (OtherHandler name) h.

Section OpenerDirector.

(** The request time limit, a Python float. *)
Variable Seconds : Type.
(** The work of the protocol handlers on an HTTP or HTTPS request: the
    request is sent with the proxies and the TLS context the handlers
    hold ([OpenerDirector._open]), and a redirection is followed as
    [HTTPRedirectHandler] does; the result is the last response received,
    or the exception raised on the way. *)
Variable exchange : list Handler -> Request -> Seconds -> PyResult Page.
(** The [args] and the [str()] of the [HTTPError] built for a response. *)
Variable http_error_args : Page -> list string.
Variable http_error_str : Page -> string.

(** [HTTPDefaultErrorHandler.http_error_default]:
    [raise HTTPError(req.full_url, code, msg, hdrs, fp)]. *)
Definition http_error_default (fp : Page) : PyExc :=
  HTTPError (http_error_args fp) (http_error_str fp) fp.

(** [HTTPErrorProcessor.http_response]: a response whose status is not
    2xx goes to [OpenerDirector.error], where the chain ends in
    [http_error_default].  (In an opener without an
    [HTTPDefaultErrorHandler] the chain would give [None] in place of the
    response; [build_opener] builds no such opener.) *)
Definition http_response (handlers : list Handler) (response : Page) : PyResult Page :=
  let code := page_code response in
  if (200 <=? code) && (code <? 300) then Ok response
  else if existsb (is_handler "HTTPDefaultErrorHandler") handlers
  then Exn (http_error_default response)
  else Ok response.

(** [OpenerDirector.open]: the protocol handlers, then the response
    processors; [HTTPErrorProcessor] is the only one among the handlers
    of [build_opener]. *)
Definition OpenerDirector_open (handlers : list Handler) (req : Request)
    (timeout : Seconds) : PyResult Page :=
  match exchange handlers req timeout with
  | Exn e => Exn e
  | Ok response =>
      if existsb (is_handler "HTTPErrorProcessor") handlers
      then http_response handlers response
      else Ok response
  end.

End OpenerDirector.

Record t := { opener : list Handler }.

(** [URLLibAdapter.__init__]; [env] is what [getproxies()] gives. *)
Definition __init__ (env : Proxies) (proxies : option Proxies)
    (ssl_context : option SSLContext) : t :=
  let opener :=
    build_opener env [HTTPSHandler ssl_context; new_ProxyHandler env proxies] in
  {| opener := opener |}.

(** A record of the module's logger. *)
Inductive LogRecord := LogDebug (message : string) (exc_info : bool).

Section Methods.

(** The request time limit, a Python float. *)
Variable Seconds : Type.
(** [opener.open(req, timeout=timeout)]: the network. *)
Variable opener_open : list Handler -> Request -> Seconds -> PyResult Page.
(** [str(body_bytes, encoding=encoding)]: the codec table. *)
Variable str_decode : list byte -> string -> PyResult string.
(** [json.loads(text)]. *)
Variable json_loads : string -> PyResult Json.

Definition urlopen (self : t) : Request -> Seconds -> PyResult Page :=
  opener_open (opener self).

Definition _decode_page (page : Page) : Outcome string :=
  let encoding :=
    match page_charset page with
    | Some c => if Py.truthy c then c else "utf-8"
    | None => "utf-8"
    end in
  match page_read page with
  | None => Raises (GeocoderServiceError "Unable to read the response")
  | Some body_bytes =>
      match str_decode body_bytes encoding with
      | Ok s => Returns s
      | Exn e =>
          if isinstance e ValueError
          then Raises (GeocoderParseError "Unable to decode the response bytes")
          else Propagates e
      end
  end.

(** [except Exception] catches whatever [_decode_page] raises; this is
    the value returned, the record written is given by
    [_read_http_error_body_log]. *)
Definition _read_http_error_body (error : Page) : option string :=
  match _decode_page error with
  | Returns s => Some s
  | Raises _ | Propagates _ => None
  end.

(** What [_read_http_error_body] writes to the logger. *)
Definition _read_http_error_body_log (error : Page) : list LogRecord :=
  match _decode_page error with
  | Returns _ => []
  | Raises _ | Propagates _ =>
      [LogDebug "Unable to fetch body for a non-successful HTTP response" true]
  end.

(** [str(error.args[0]) if len(error.args) else str(error)]. *)
Definition error_message (error : PyExc) : string :=
  match exc_args error with
  | a :: _ => a
  | [] => exc_str error
  end.

Definition get_text (self : t) (url : string) (timeout : Seconds)
    (headers : Headers) : Outcome string :=
  let req := {| req_url := url; req_headers := headers |} in
  match urlopen self req timeout with
  | Exn error =>
      let message := error_message error in
      match error with
      | HTTPError _ _ fp =>
          let code := page_code fp in
          let body := _read_http_error_body fp in
          Raises (AdapterHTTPError message code body)
      | Exc _ _ _ =>
          if isinstance error URLError then
            if Py.str_in "timed out" message
            then Raises (GeocoderTimedOut "Service timed out")
            else if Py.str_in "unreachable" message
            then Raises (GeocoderUnavailable "Service not available")
            else Raises (GeocoderServiceError message)
          else if isinstance error SocketTimeout then
            Raises (GeocoderTimedOut "Service timed out")
          else if isinstance error SSLError then
            if Py.str_in "timed out" message
            then Raises (GeocoderTimedOut "Service timed out")
            else Raises (GeocoderServiceError message)
          else Raises (GeocoderServiceError message)
      end
  | Ok page =>
      bind (_decode_page page) (fun text =>
        let status_code := page_code page in
        if 400 <=? status_code
        then Raises (AdapterHTTPError "Non-successful status code"
                       status_code (Some text))
        else Returns text)
  end.

(** What a call of [get_text] writes to the logger: the record of
    [_read_http_error_body], in the [HTTPError] branch. *)
Definition get_text_log (self : t) (url : string) (timeout : Seconds)
    (headers : Headers) : list LogRecord :=
  let req := {| req_url := url; req_headers := headers |} in
  match urlopen self req timeout with
  | Exn (HTTPError _ _ fp) => _read_http_error_body_log fp
  | Exn (Exc _ _ _) | Ok _ => []
  end.

Definition deserialize_error (text : string) : GeopyError :=
  GeocoderParseError ("Could not deserialize using deserializer:" +:+
                      String "010" text).

Definition get_json (self : t) (url : string) (timeout : Seconds)
    (headers : Headers) : Outcome Json :=
  bind (get_text self url timeout headers) (fun text =>
    match json_loads text with
    | Ok v => Returns v
    | Exn e =>
        if isinstance e ValueError then Raises (deserialize_error text)
        else Propagates e
    end).

End Methods.

End URLLibAdapter.

(** ** RequestsHTTPWithSSLContextAdapter *)

Module RequestsHTTPWithSSLContextAdapter.

(** A keyword argument of the pool-manager factories. *)
Inductive KwArg :=
  | KwContext (c : SSLContext)
  | KwValue (repr : string).

Abbreviation Kwargs := (gmap string KwArg).

(** The two private attributes, [__ssl_context] and [__urllib3_warned]. *)
Record t := { ssl_context : option SSLContext; urllib3_warned : bool }.

Inductive Warning := UserWarning (message : string).

Definition old_urllib3_warning : Warning :=
  UserWarning
    ("urllib3 prior to 1.24.2 is known to have a bug with " +:+
     "custom ssl contexts: it attempts to load system certificates " +:+
     "to them. Please consider upgrading urllib3 package. " +:+
     "See https://github.com/urllib3/urllib3/pull/1566").

(** The connection fields [cert_verify] writes, and one it leaves alone. *)
Record Connection := {
  ca_certs : option string;
  ca_cert_dir : option string;
  cert_file : option string;
  key_file : option string;
  cert_reqs : string
}.

Inductive Verify := VerifyFlag (b : bool) | VerifyBundle (path : string).
Definition Cert := option (string * option string).

(** [silent_int], the local function of [__warn_if_old_urllib3]. *)
Definition silent_int (s : string) : Z :=
  match Py.int s with
  | Some n => n
  | None => 0
  end.

(** The attributes as [__init__] sets them, before it calls the
    initializer of the base class. *)
Definition fresh (ssl_context : option SSLContext) : t :=
  {| ssl_context := ssl_context; urllib3_warned := false |}.

Section Methods.

(** [urllib3.__version__]. *)
Variable urllib3_version : string.
(** [HTTPAdapter.cert_verify] of [requests]: what it leaves on the
    connection, and the exception it raises, if any. *)
Variable super_cert_verify :
  Connection -> string -> Verify -> Cert -> Connection * option PyExc.

(** Returns the instance and the warnings emitted. *)
Definition __warn_if_old_urllib3 (self : t) : t * list Warning :=
  if urllib3_warned self then (self, [])
  else
    let self := {| ssl_context := ssl_context self; urllib3_warned := true |} in
    let version := silent_int <$> Py.split "." urllib3_version in
    if Py.tuple_lt version [1; 24; 2]
    then (self, [old_urllib3_warning])
    else (self, []).

(** Returns the keyword arguments handed to [super().init_poolmanager],
    the instance and the warnings emitted. *)
Definition init_poolmanager (self : t) (kwargs : Kwargs)
    : Kwargs * t * list Warning :=
  match ssl_context self with
  | Some ctx =>
      let kwargs := <["ssl_context" := KwContext ctx]> kwargs in
      let '(self, ws) := __warn_if_old_urllib3 self in
      (kwargs, self, ws)
  | None => (kwargs, self, [])
  end.

(** Returns the keyword arguments handed to [super().proxy_manager_for],
    the instance and the warnings emitted. *)
Definition proxy_manager_for (self : t) (proxy : string) (proxy_kwargs : Kwargs)
    : Kwargs * t * list Warning :=
  match ssl_context self with
  | Some ctx =>
      let proxy_kwargs := <["ssl_context" := KwContext ctx]> proxy_kwargs in
      let '(self, ws) := __warn_if_old_urllib3 self in
      (proxy_kwargs, self, ws)
  | None => (proxy_kwargs, self, [])
  end.

(** Returns the connection as the call leaves it. *)
Definition cert_verify (self : t) (conn : Connection) (url : string)
    (verify : Verify) (cert : Cert) : Connection * Outcome unit :=
  match super_cert_verify conn url verify cert with
  | (conn, Some e) => (conn, Propagates e)
  | (conn, None) =>
      match ssl_context self with
      | Some _ =>
          ({| ca_certs := None; ca_cert_dir := None; cert_file := None;
              key_file := None; cert_reqs := cert_reqs conn |}, Returns tt)
      | None => (conn, Returns tt)
      end
  end.

(** [__init__]: the attributes are set, then the initializer of
    [requests.adapters.HTTPAdapter] runs, which builds the first pool
    manager through [self.init_poolmanager(.., block=pool_block)]. *)
Definition __init__ (ssl_context : option SSLContext) : t * list Warning :=
  let self := fresh ssl_context in
  let '(_, self, ws) := init_poolmanager self {["block" := KwValue "False"]} in
  (self, ws).

(** The calls an instance receives over its life. *)
Inductive Call :=
  | Call_init_poolmanager (kwargs : Kwargs)
  | Call_proxy_manager_for (proxy : string) (proxy_kwargs : Kwargs)
  | Call_cert_verify (conn : Connection) (url : string) (verify : Verify) (cert : Cert).

Definition step (self : t) (c : Call) : t * list Warning :=
  match c with
  | Call_init_poolmanager kw =>
      let '(_, self, ws) := init_poolmanager self kw in (self, ws)
  | Call_proxy_manager_for p kw =>
      let '(_, self, ws) := proxy_manager_for self p kw in (self, ws)
  | Call_cert_verify _ _ _ _ => (self, [])
  end.

(** The instance after a sequence of calls and the warnings emitted, in
    order. *)
Fixpoint run (self : t) (calls : list Call) : t * list Warning :=
  match calls with
  | [] => (self, [])
  | c :: calls' =>
      let '(self, ws) := step self c in
      let '(self, ws') := run self calls' in
      (self, (ws ++ ws')%list)
  end.

(** A call that binds the context: a pool-manager or proxy-manager
    construction. *)
Definition binds (c : Call) : bool :=
  match c with
  | Call_init_poolmanager _ | Call_proxy_manager_for _ _ => true
  | Call_cert_verify _ _ _ _ => false
  end.

End Methods.

End RequestsHTTPWithSSLContextAdapter.

(** ** RequestsAdapter *)

Module RequestsAdapter.

Module SSLAdapter := RequestsHTTPWithSSLContextAdapter.

(** [requests.Response]: the status code, the decoded [text], and what
    the [json()] method does.  [json()] belongs to [requests]; it reads
    the raw content and picks the encoding by itself when the response
    declares none, so it is not a function of [text]. *)
Record Response := {
  status_code : Z;
  text : string;
  json : PyResult Json
}.

Inductive Mounted :=
  | HTTPAdapter
  | WithSSLContext (a : SSLAdapter.t).

(** [requests.Session]: the attributes the adapter sets, the mounted
    transport adapters and the keep-alive connections held. *)
Record Session := {
  trust_env : bool;
  proxies : option Proxies;
  adapters : gmap string Mounted;
  pool : list string
}.

(** [requests.Session()]. *)
Definition Session_new : Session :=
  {| trust_env := true; proxies := Some ∅;
     adapters := {["https://" := HTTPAdapter; "http://" := HTTPAdapter]};
     pool := [] |}.

Definition set_trust_env (b : bool) (s : Session) : Session :=
  {| trust_env := b; proxies := proxies s; adapters := adapters s; pool := pool s |}.
Definition set_proxies (p : option Proxies) (s : Session) : Session :=
  {| trust_env := trust_env s; proxies := p; adapters := adapters s; pool := pool s |}.
Definition mount (prefix : string) (a : Mounted) (s : Session) : Session :=
  {| trust_env := trust_env s; proxies := proxies s;
     adapters := <[prefix := a]> (adapters s); pool := pool s |}.
Definition set_pool (p : list string) (s : Session) : Session :=
  {| trust_env := trust_env s; proxies := proxies s; adapters := adapters s; pool := p |}.

Record t := { session : Session }.

Definition requests_missing : PyExc :=
  let msg :=
    "`requests` must be installed in order to use RequestsAdapter. " +:+
    "If you have installed geopy via pip, you may use " +:+
    "this command to install requests: " +:+
    "`pip install " +:+ String "034" ("geopy[requests]" +:+ String "034" "`.") in
  Exc [ImportError] [msg] msg.

Section Methods.

Variable Seconds : Type.
(** Whether [import requests] succeeded. *)
Variable requests_available : bool.
Variable urllib3_version : string.
(** [session.get(url, timeout=timeout, headers=headers)]: the
    connections the session holds afterwards, and the result. *)
Variable session_get :
  Session -> string -> Seconds -> Headers -> list string * PyResult Response.
(** [session.close()]: the session afterwards and the exception
    raised, if any. *)
Variable session_close : Session -> Session * option PyExc.

Definition __init__ (proxies : option Proxies) (ssl_context : option SSLContext)
    : Outcome t * list SSLAdapter.Warning :=
  if negb requests_available then (Propagates requests_missing, [])
  else
    let session := Session_new in
    let session :=
      match proxies with
      | Some _ => set_trust_env false session
      | None => session
      end in
    let session := set_proxies proxies session in
    let '(adapter, ws) := SSLAdapter.__init__ urllib3_version ssl_context in
    let session := mount "https://" (WithSSLContext adapter) session in
    (Returns {| session := session |}, ws).

Definition __del__ (self : t) : t * Outcome unit :=
  let '(s, r) := session_close (session self) in
  ({| session := s |},
   match r with
   | None => Returns tt
   | Some e => Propagates e
   end).

Definition _request (self : t) (url : string) (timeout : Seconds)
    (headers : Headers) : t * Outcome Response :=
  let '(pool', r) := session_get (session self) url timeout headers in
  let self := {| session := set_pool pool' (session self) |} in
  match r with
  | Exn error =>
      let message := exc_str error in
      (self,
       if isinstance error SocketTimeout then
         Raises (GeocoderTimedOut "Service timed out")
       else if isinstance error SSLError then
         if Py.str_in "timed out" message
         then Raises (GeocoderTimedOut "Service timed out")
         else Raises (GeocoderServiceError message)
       else if isinstance error requests_ConnectionError then
         Raises (GeocoderUnavailable message)
       else if isinstance error requests_Timeout then
         Raises (GeocoderTimedOut "Service timed out")
       else Raises (GeocoderServiceError message))
  | Ok resp =>
      (self,
       if 400 <=? status_code resp
       then Raises (AdapterHTTPError "Non-successful status code"
                      (status_code resp) (Some (text resp)))
       else Returns resp)
  end.

Definition get_text (self : t) (url : string) (timeout : Seconds)
    (headers : Headers) : t * Outcome string :=
  let '(self, r) := _request self url timeout headers in
  (self, bind r (fun resp => Returns (text resp))).

Definition deserialize_error (text : string) : GeopyError :=
  GeocoderParseError ("Could not deserialize using deserializer:" +:+
                      String "010" text).

Definition get_json (self : t) (url : string) (timeout : Seconds)
    (headers : Headers) : t * Outcome Json :=
  let '(self, r) := _request self url timeout headers in
  (self,
   bind r (fun resp =>
     match json resp with
     | Ok v => Returns v
     | Exn e =>
         if isinstance e ValueError then Raises (deserialize_error (text resp))
         else Propagates e
     end)).

End Methods.

End RequestsAdapter.

(** ** Instances of the library parameters, for the examples *)

Module Sample.

Definition continuation (b : N) : bool := ((128 <=? b) && (b <=? 191))%N.

(** Well-formed UTF-8 byte sequences (Unicode, table 3-7). *)
Fixpoint utf8_valid (bs : list N) : bool :=
  match bs with
  | [] => true
  | b :: r =>
      if (b <? 128)%N then utf8_valid r
      else if ((194 <=? b) && (b <=? 223))%N then
        match r with
        | c1 :: r1 => continuation c1 && utf8_valid r1
        | _ => false
        end
      else if ((224 <=? b) && (b <=? 239))%N then
        match r with
        | c1 :: c2 :: r2 =>
            (if (b =? 224)%N then ((160 <=? c1) && (c1 <=? 191))%N
             else if (b =? 237)%N then ((128 <=? c1) && (c1 <=? 159))%N
             else continuation c1)
            && continuation c2 && utf8_valid r2
        | _ => false
        end
      else if ((240 <=? b) && (b <=? 244))%N then
        match r with
        | c1 :: c2 :: c3 :: r3 =>
            (if (b =? 240)%N then ((144 <=? c1) && (c1 <=? 191))%N
             else if (b =? 244)%N then ((128 <=? c1) && (c1 <=? 143))%N
             else continuation c1)
            && continuation c2 && continuation c3 && utf8_valid r3
        | _ => false
        end
      else false
  end.

Definition UnicodeDecodeError : PyExc :=
  Exc [OtherClass "UnicodeDecodeError"; OtherClass "UnicodeError"; ValueError]
      ["invalid start byte"] "codec can't decode byte: invalid start byte".

Definition unknown_encoding (encoding : string) : PyExc :=
  Exc [LookupError] ["unknown encoding: " +:+ encoding]
      ("unknown encoding: " +:+ encoding).

(** A codec table with [utf-8] and [ascii]; a text is kept as its UTF-8
    bytes. *)
Definition str_decode (body : list byte) (encoding : string) : PyResult string :=
  if bool_decide (encoding = "utf-8") then
    if utf8_valid (Byte.to_N <$> body)
    then Ok (string_of_list_byte body) else Exn UnicodeDecodeError
  else if bool_decide (encoding = "ascii") then
    if forallb (fun b => (Byte.to_N b <? 128)%N) body
    then Ok (string_of_list_byte body) else Exn UnicodeDecodeError
  else Exn (unknown_encoding encoding).

Definition JSONDecodeError : PyExc :=
  Exc [OtherClass "JSONDecodeError"; ValueError]
      ["Expecting value: line 1 column 1 (char 0)"]
      "Expecting value: line 1 column 1 (char 0)".

(** A JSON reader for the literals and the integers. *)
Definition json_loads (text : string) : PyResult Json :=
  if bool_decide (text = "null") then Ok JNull
  else if bool_decide (text = "true") then Ok (JBool true)
  else if bool_decide (text = "false") then Ok (JBool false)
  else match Py.digits (list_ascii_of_string text) 0 false with
       | Some _ => Ok (JNumber text)
       | None => Exn JSONDecodeError
       end.

(** A network that answers every request in the same way. *)
Definition answers (r : PyResult Page)
    : list URLLibAdapter.Handler -> URLLibAdapter.Request -> unit -> PyResult Page :=
  fun _ _ _ => r.

Definition bytes_of (s : string) : list byte := list_byte_of_string s.

(** The text of an [HTTPError]: [args] is empty, and [str()] is
    [HTTP Error], the code and the reason phrase. *)
Definition http_error_args (fp : Page) : list string := [].

Definition http_error_str (fp : Page) : string :=
  if page_code fp =? 304 then "HTTP Error 304: Not Modified"
  else if page_code fp =? 404 then "HTTP Error 404: Not Found"
  else if page_code fp =? 500 then "HTTP Error 500: Internal Server Error"
  else "HTTP Error".

Definition http_error_default_of (fp : Page) : PyExc :=
  URLLibAdapter.http_error_default http_error_args http_error_str fp.

(** The opener of the library in front of a server that answers every
    request in the same way. *)
Definition served (r : PyResult Page)
    : list URLLibAdapter.Handler -> URLLibAdapter.Request -> unit -> PyResult Page :=
  URLLibAdapter.OpenerDirector_open unit (answers r) http_error_args http_error_str.

End Sample.

(** ** Facts about the Python values *)

Module PyFacts.

Lemma startswith_spec (p s : string) :
  Py.startswith p s = true <-> exists b, s = p +:+ b.
Proof.
  revert s; induction p as [|a p IH]; intros s; simpl.
  - split; [intros _; exists s; reflexivity | reflexivity].
  - destruct s as [|c s]; simpl.
    + split; [discriminate | intros [b Hb]; discriminate].
    + rewrite andb_true_iff, Ascii.eqb_eq, IH. split.
      * intros [-> [b ->]]. exists b. reflexivity.
      * intros [b Hb]. injection Hb as -> ->. split; [reflexivity | eauto].
Qed.

(** [needle in hay] holds exactly when [hay] is [a + needle + b]. *)
Lemma str_in_spec (needle hay : string) :
  Py.str_in needle hay = true <-> exists a b, hay = a +:+ needle +:+ b.
Proof.
  induction hay as [|c hay IH]; simpl.
  - rewrite orb_false_r, startswith_spec. split.
    + intros [b Hb]. exists EmptyString, b. exact Hb.
    + intros [a [b Hb]]. destruct a; simpl in Hb; [eauto | discriminate].
  - rewrite orb_true_iff, startswith_spec, IH. split.
    + intros [[b Hb] | [a [b Hb]]].
      * exists EmptyString, b. exact Hb.
      * exists (String c a), b. simpl. rewrite Hb. reflexivity.
    + intros [a [b Hb]]. destruct a as [|c' a]; simpl in Hb.
      * left. eauto.
      * right. injection Hb as _ ->. eauto.
Qed.

Lemma str_in_suffix (prefix s : string) : Py.str_in s (prefix +:+ s) = true.
Proof.
  apply str_in_spec. exists prefix, EmptyString.
  f_equal. induction s as [|c s IH]; [reflexivity|].
  change (String c s = String c (s +:+ EmptyString)). congruence.
Qed.




(** "Lexicographically less", in words: the tuples agree on a common
    prefix, after which the left one ends and the right one goes on, or
    the left one has the smaller component. *)
Definition lex_less (xs ys : list Z) : Prop :=
  exists p : list Z,
    (exists y r, xs = p /\ ys = (p ++ y :: r)%list) \/
    (exists x y r1 r2,
       xs = (p ++ x :: r1)%list /\ ys = (p ++ y :: r2)%list /\ x < y).

Lemma tuple_lt_spec (xs ys : list Z) :
  Py.tuple_lt xs ys = true <-> lex_less xs ys.
Proof.
  revert ys; induction xs as [|x xs IH]; intros [|y ys]; simpl.
  - split; [discriminate|].
    intros [p [(y & r & _ & H) | (x & y & r1 & r2 & H & _)]];
      destruct p; discriminate.
  - split; [|reflexivity]. intros _. exists []. left. exists y, ys. done.
  - split; [discriminate|].
    intros [p [(y & r & _ & H) | (x' & y & r1 & r2 & _ & H & _)]];
      destruct p; discriminate.
  - destruct (Z.eqb_spec x y) as [->|Hne].
    + rewrite IH. split.
      * intros [p [(y' & r & -> & ->) | (x' & y' & r1 & r2 & -> & -> & Hlt)]].
        -- exists (y :: p). left. exists y', r. done.
        -- exists (y :: p). right. exists x', y', r1, r2. done.
      * intros [p [(y' & r & H1 & H2) | (x' & y' & r1 & r2 & H1 & H2 & Hlt)]].
        -- destruct p as [|z p]; simpl in *.
           ++ discriminate.
           ++ injection H1 as -> ->. injection H2 as ->.
              exists p. left. exists y', r. done.
        -- destruct p as [|z p]; simpl in *.
           ++ injection H1 as -> ->. injection H2 as -> ->. lia.
           ++ injection H1 as -> ->. injection H2 as ->.
              exists p. right. exists x', y', r1, r2. done.
    + rewrite Z.ltb_lt. split.
      * intros Hlt. exists []. right. exists x, y, xs, ys. done.
      * intros [p [(y' & r & H1 & H2) | (x' & y' & r1 & r2 & H1 & H2 & Hlt)]].
        -- destruct p as [|z p]; simpl in *; [discriminate|].
           injection H1 as -> ->. injection H2 as ->. done.
        -- destruct p as [|z p]; simpl in *.
           ++ injection H1 as -> ->. injection H2 as -> ->. done.
           ++ injection H1 as -> ->. injection H2 as ->. done.
Qed.

End PyFacts.

(** ** The TLS context binding of the pooled adapter *)

Module TLSContextBinding.

Import RequestsHTTPWithSSLContextAdapter.

(** The test of [__warn_if_old_urllib3], by the words of the
    specification: the components that are integers, 0 for the others. *)
Definition int_or_zero (s : string) : Z := default 0 (Py.int s).

Definition components (version : string) : list Z :=
  int_or_zero <$> Py.split "." version.

Definition old_urllib3 (version : string) : bool :=
  Py.tuple_lt (silent_int <$> Py.split "." version) [1; 24; 2].

Lemma silent_int_int_or_zero (s : string) : silent_int s = int_or_zero s.
Proof. unfold silent_int, int_or_zero. destruct (Py.int s); reflexivity. Qed.

Lemma old_urllib3_components (version : string) :
  old_urllib3 version = Py.tuple_lt (components version) [1; 24; 2].
Proof.
  unfold old_urllib3, components.
  rewrite (list_fmap_ext silent_int int_or_zero); [reflexivity|].
  intros _ s _. apply silent_int_int_or_zero.
Qed.

Section Instance.

Variable urllib3_version : string.

Abbreviation warn := (__warn_if_old_urllib3 urllib3_version).
Abbreviation step := (step urllib3_version).
Abbreviation run := (run urllib3_version).

Lemma warn_warned (self : t) :
  urllib3_warned self = true -> warn self = (self, []).
Proof. intros H. unfold __warn_if_old_urllib3. rewrite H. reflexivity. Qed.

Lemma warn_first (self : t) :
  urllib3_warned self = false ->
  warn self =
    ({| ssl_context := ssl_context self; urllib3_warned := true |},
     if old_urllib3 urllib3_version then [old_urllib3_warning] else []).
Proof.
  intros H. unfold __warn_if_old_urllib3, old_urllib3. rewrite H.
  destruct (Py.tuple_lt _ _); reflexivity.
Qed.

Lemma step_warned (self : t) (c : Call) :
  urllib3_warned self = true -> step self c = (self, []).
Proof.
  intros H. destruct c; simpl; [| |reflexivity];
    unfold init_poolmanager, proxy_manager_for;
    destruct (ssl_context self); rewrite ?warn_warned by exact H; reflexivity.
Qed.

Lemma step_no_context (self : t) (c : Call) :
  ssl_context self = None -> step self c = (self, []).
Proof.
  intros H. destruct c; simpl; [| |reflexivity];
    unfold init_poolmanager, proxy_manager_for; rewrite H; reflexivity.
Qed.

Lemma step_not_binding (self : t) (c : Call) :
  binds c = false -> step self c = (self, []).
Proof. destruct c; simpl; [discriminate..|reflexivity]. Qed.

Lemma step_first_binding (self : t) (ctx : SSLContext) (c : Call) :
  ssl_context self = Some ctx -> urllib3_warned self = false -> binds c = true ->
  step self c =
    ({| ssl_context := Some ctx; urllib3_warned := true |},
     if old_urllib3 urllib3_version then [old_urllib3_warning] else []).
Proof.
  intros Hc Hw Hb. destruct c; simpl in *; [| |discriminate];
    unfold init_poolmanager, proxy_manager_for;
    rewrite Hc, warn_first by exact Hw; rewrite Hc; reflexivity.
Qed.

Lemma run_cons (self : t) (c : Call) (calls : list Call) :
  run self (c :: calls) =
    (fst (run (fst (step self c)) calls),
     (snd (step self c) ++ snd (run (fst (step self c)) calls))%list).
Proof.
  simpl. destruct (RequestsHTTPWithSSLContextAdapter.step _ self c) as [self1 ws].
  simpl. destruct (RequestsHTTPWithSSLContextAdapter.run _ self1 calls).
  reflexivity.
Qed.

Lemma run_app (self : t) (calls1 calls2 : list Call) :
  run self (calls1 ++ calls2) =
    (fst (run (fst (run self calls1)) calls2),
     (snd (run self calls1) ++ snd (run (fst (run self calls1)) calls2))%list).
Proof.
  revert self; induction calls1 as [|c calls1 IH]; intros self.
  - simpl. destruct (RequestsHTTPWithSSLContextAdapter.run _ self calls2).
    reflexivity.
  - rewrite <- app_comm_cons, !run_cons, IH. simpl.
    rewrite app_assoc. reflexivity.
Qed.

Lemma run_warned (self : t) (calls : list Call) :
  urllib3_warned self = true -> run self calls = (self, []).
Proof.
  intros H. induction calls as [|c calls IH]; [reflexivity|].
  rewrite run_cons, step_warned by exact H. simpl. rewrite IH. reflexivity.
Qed.

Lemma run_no_context (self : t) (calls : list Call) :
  ssl_context self = None -> run self calls = (self, []).
Proof.
  intros H. induction calls as [|c calls IH]; [reflexivity|].
  rewrite run_cons, step_no_context by exact H. simpl. rewrite IH. reflexivity.
Qed.

Lemma run_not_binding (self : t) (calls : list Call) :
  existsb binds calls = false -> run self calls = (self, []).
Proof.
  induction calls as [|c calls IH]; [reflexivity|]. simpl existsb.
  intros [Hc Hcalls]%orb_false_iff.
  rewrite run_cons, step_not_binding by exact Hc. simpl.
  rewrite IH by exact Hcalls. reflexivity.
Qed.

(** The warnings of a whole life, for an instance built with a context. *)
Lemma run_fresh_context (ctx : SSLContext) (calls : list Call) :
  snd (run (fresh (Some ctx)) calls) =
    if existsb binds calls && old_urllib3 urllib3_version
    then [old_urllib3_warning] else [].
Proof.
  induction calls as [|c calls IH]; [reflexivity|].
  rewrite run_cons. simpl existsb. destruct (binds c) eqn:Hb.
  - rewrite (step_first_binding _ ctx) by done. simpl.
    rewrite run_warned by reflexivity. simpl.
    destruct (old_urllib3 urllib3_version); reflexivity.
  - rewrite step_not_binding by exact Hb. simpl. exact IH.
Qed.

End Instance.

(** An instance of the base class's [cert_verify] for the examples: with
    [verify=True] it points the connection at the bundle of system
    authorities, and it copies the client certificate. *)
Definition bundle_cert_verify (conn : Connection) (url : string)
    (verify : Verify) (cert : Cert) : Connection * option PyExc :=
  ({| ca_certs :=
        match verify with
        | VerifyFlag true => Some "/etc/ssl/certs/ca-certificates.crt"
        | VerifyFlag false => None
        | VerifyBundle path => Some path
        end;
      ca_cert_dir := None;
      cert_file := fst <$> cert;
      key_file := cert ≫= snd;
      cert_reqs :=
        match verify with
        | VerifyFlag false => "CERT_NONE"
        | _ => "CERT_REQUIRED"
        end |}, None).

Definition blank_connection : Connection :=
  {| ca_certs := None; ca_cert_dir := None; cert_file := None;
     key_file := None; cert_reqs := "CERT_NONE" |}.

(** C7. With a custom TLS context, [init_poolmanager] and
    [proxy_manager_for] both hand exactly that context to the base class
    under the key [ssl_context] and leave the other keyword arguments as
    they were, and every [cert_verify] that the base class completes
    leaves [ca_certs], [ca_cert_dir], [cert_file] and [key_file] at
    [None] whatever the base class had put there; without a custom
    context the keyword arguments and the connection are those of the
    base class, untouched.  An exception of the base class's
    [cert_verify] propagates. *)
Theorem custom_context_bound_and_certificates_cleared
    (urllib3_version : string)
    (super_cert_verify :
       Connection -> string -> Verify -> Cert -> Connection * option PyExc)
    (self : t) :
  (forall ctx : SSLContext, ssl_context self = Some ctx ->
     (forall kwargs : Kwargs,
        (init_poolmanager urllib3_version self kwargs).1.1 !! "ssl_context"
          = Some (KwContext ctx) /\
        (forall k : string, k <> "ssl_context" ->
           (init_poolmanager urllib3_version self kwargs).1.1 !! k = kwargs !! k)) /\
     (forall (proxy : string) (kwargs : Kwargs),
        (proxy_manager_for urllib3_version self proxy kwargs).1.1 !! "ssl_context"
          = Some (KwContext ctx) /\
        (forall k : string, k <> "ssl_context" ->
           (proxy_manager_for urllib3_version self proxy kwargs).1.1 !! k
             = kwargs !! k)) /\
     (forall conn url verify cert conn',
        super_cert_verify conn url verify cert = (conn', None) ->
        cert_verify super_cert_verify self conn url verify cert =
          ({| ca_certs := None; ca_cert_dir := None; cert_file := None;
              key_file := None; cert_reqs := cert_reqs conn' |}, Returns tt))) /\
  (ssl_context self = None ->
     (forall kwargs : Kwargs,
        (init_poolmanager urllib3_version self kwargs).1.1 = kwargs) /\
     (forall (proxy : string) (kwargs : Kwargs),
        (proxy_manager_for urllib3_version self proxy kwargs).1.1 = kwargs) /\
     (forall conn url verify cert conn',
        super_cert_verify conn url verify cert = (conn', None) ->
        cert_verify super_cert_verify self conn url verify cert =
          (conn', Returns tt))) /\
  (forall conn url verify cert conn' e,
     super_cert_verify conn url verify cert = (conn', Some e) ->
     cert_verify super_cert_verify self conn url verify cert =
       (conn', Propagates e)).
Proof.
  split; [|split].
  - intros ctx Hctx. split; [|split].
    + intros kwargs. unfold init_poolmanager. rewrite Hctx.
      destruct (__warn_if_old_urllib3 urllib3_version self) as [self' ws]. simpl.
      split; [apply lookup_insert_eq|].
      intros k Hk. apply lookup_insert_ne. congruence.
    + intros proxy kwargs. unfold proxy_manager_for. rewrite Hctx.
      destruct (__warn_if_old_urllib3 urllib3_version self) as [self' ws]. simpl.
      split; [apply lookup_insert_eq|].
      intros k Hk. apply lookup_insert_ne. congruence.
    + intros conn url verify cert conn' Hsuper.
      unfold cert_verify. rewrite Hsuper, Hctx. reflexivity.
  - intros Hctx. split; [|split].
    + intros kwargs. unfold init_poolmanager. rewrite Hctx. reflexivity.
    + intros proxy kwargs. unfold proxy_manager_for. rewrite Hctx. reflexivity.
    + intros conn url verify cert conn' Hsuper.
      unfold cert_verify. rewrite Hsuper, Hctx. reflexivity.
  - intros conn url verify cert conn' e Hsuper.
    unfold cert_verify. rewrite Hsuper. reflexivity.
Qed.

Lemma custom_context_bound_and_certificates_cleared_witness :
  (init_poolmanager "1.26.18" (fresh (Some 7%positive)) ∅).1.1 !! "ssl_context"
    = Some (KwContext 7%positive) /\
  (proxy_manager_for "1.26.18" (fresh (Some 7%positive)) "http://proxy:3128"
     {["num_pools" := KwValue "10"]}).1.1 !! "ssl_context"
    = Some (KwContext 7%positive) /\
  cert_verify bundle_cert_verify (fresh (Some 7%positive)) blank_connection
    "https://example.org/" (VerifyFlag true) (Some ("client.pem", Some "client.key"))
    = ({| ca_certs := None; ca_cert_dir := None; cert_file := None;
          key_file := None; cert_reqs := "CERT_REQUIRED" |}, Returns tt) /\
  cert_verify bundle_cert_verify (fresh None) blank_connection
    "https://example.org/" (VerifyFlag true) None
    = ({| ca_certs := Some "/etc/ssl/certs/ca-certificates.crt";
          ca_cert_dir := None; cert_file := None;
          key_file := None; cert_reqs := "CERT_REQUIRED" |}, Returns tt).
Proof.
  destruct (custom_context_bound_and_certificates_cleared
              "1.26.18" bundle_cert_verify (fresh (Some 7%positive)))
    as [Hsome _].
  destruct (Hsome 7%positive eq_refl) as (Hpool & Hproxy & Hverify).
  destruct (custom_context_bound_and_certificates_cleared
              "1.26.18" bundle_cert_verify (fresh None))
    as (_ & Hnone & _).
  destruct (Hnone eq_refl) as (_ & _ & Hverify').
  split; [exact (proj1 (Hpool _))|]. split; [exact (proj1 (Hproxy _ _))|].
  split.
  - exact (Hverify blank_connection "https://example.org/" (VerifyFlag true)
             (Some ("client.pem", Some "client.key")) _ eq_refl).
  - exact (Hverify' blank_connection "https://example.org/" (VerifyFlag true)
             None _ eq_refl).
Defined.

(** C8. Over the whole life of an instance (any sequence of calls after
    the attributes are set) at most one warning is emitted; it is the
    old-urllib3 warning, and it is emitted exactly when the instance has
    a context, some call binds it, and the parsed version compares below
    (1, 24, 2).  It comes from the first call that binds the context,
    and no later call warns.  The initializer itself makes the first
    binding call, so no call after construction warns.  The flag is a
    field of the instance: two instances each emit their own warning. *)
Theorem urllib3_warning_once_per_instance (urllib3_version : string) :
  (forall (ctx : option SSLContext) (calls : list Call),
     let ws := snd (run urllib3_version (fresh ctx) calls) in
     (length ws <= 1)%nat /\
     (ws = [] \/ ws = [old_urllib3_warning]) /\
     (ws = [old_urllib3_warning] <->
        is_Some ctx /\ existsb binds calls = true /\
        Py.tuple_lt (silent_int <$> Py.split "." urllib3_version) [1; 24; 2] = true) /\
     (forall before c after,
        calls = (before ++ c :: after)%list ->
        existsb binds before = false -> binds c = true ->
        snd (run urllib3_version (fresh ctx) before) = [] /\
        snd (step urllib3_version (fst (run urllib3_version (fresh ctx) before)) c) = ws /\
        snd (run urllib3_version
               (fst (run urllib3_version (fresh ctx) (before ++ [c])%list)) after) = [])) /\
  (forall (ctx : option SSLContext) (calls : list Call),
     __init__ urllib3_version ctx =
       run urllib3_version (fresh ctx)
         [Call_init_poolmanager {["block" := KwValue "False"]}] /\
     snd (run urllib3_version (fst (__init__ urllib3_version ctx)) calls) = []) /\
  (forall (ctx1 ctx2 : SSLContext) (calls1 calls2 : list Call),
     existsb binds calls1 = true -> existsb binds calls2 = true ->
     Py.tuple_lt (silent_int <$> Py.split "." urllib3_version) [1; 24; 2] = true ->
     (snd (run urllib3_version (fresh (Some ctx1)) calls1) ++
      snd (run urllib3_version (fresh (Some ctx2)) calls2))%list
       = [old_urllib3_warning; old_urllib3_warning]).
Proof.
  assert (Hws : forall (ctx : option SSLContext) calls,
    snd (run urllib3_version (fresh ctx) calls) =
      if match ctx with Some _ => true | None => false end && existsb binds calls
         && old_urllib3 urllib3_version
      then [old_urllib3_warning] else []).
  { intros [ctx|] calls.
    - rewrite run_fresh_context. reflexivity.
    - rewrite run_no_context by reflexivity. reflexivity. }
  split; [|split].
  - intros ctx calls ws. subst ws. rewrite Hws. fold (old_urllib3 urllib3_version).
    split; [|split; [|split]].
    + destruct (_ && _ && _); simpl; lia.
    + destruct (_ && _ && _); eauto.
    + destruct ctx as [ctx|];
        destruct (existsb binds calls), (old_urllib3 urllib3_version); simpl;
        split; try done; try (intros (? & ? & ?); done);
        try (intros ([? ?] & ? & ?); done).
    + intros before c after -> Hbefore Hc.
      rewrite (run_not_binding _ _ before) by exact Hbefore. simpl.
      split; [reflexivity|].
      rewrite existsb_app. simpl. rewrite Hbefore, Hc. simpl.
      rewrite run_app, (run_not_binding _ _ before) by exact Hbefore. simpl.
      destruct ctx as [ctx|].
      * rewrite (step_first_binding _ _ ctx) by done. simpl.
        split; [reflexivity|]. rewrite run_warned by reflexivity. reflexivity.
      * rewrite step_no_context by reflexivity. simpl.
        split; [reflexivity|].
        rewrite run_no_context by reflexivity. reflexivity.
  - intros ctx calls. split.
    + unfold __init__. simpl.
      destruct (init_poolmanager urllib3_version (fresh ctx) _) as [[kw self] ws].
      rewrite app_nil_r. reflexivity.
    + unfold __init__, init_poolmanager. simpl. destruct ctx as [ctx|]; simpl.
      * rewrite warn_first by reflexivity. simpl.
        rewrite run_warned by reflexivity. reflexivity.
      * rewrite run_no_context by reflexivity. reflexivity.
  - intros ctx1 ctx2 calls1 calls2 H1 H2 Hold.
    rewrite !run_fresh_context, H1, H2. unfold old_urllib3. rewrite Hold.
    reflexivity.
Qed.

Lemma urllib3_warning_once_per_instance_witness :
  snd (run "1.24.1" (fresh (Some 7%positive))
         [Call_init_poolmanager ∅;
          Call_proxy_manager_for "http://proxy:3128" ∅;
          Call_init_poolmanager ∅])
    = [old_urllib3_warning] /\
  (snd (run "1.24.1" (fresh (Some 7%positive)) [Call_init_poolmanager ∅]) ++
   snd (run "1.24.1" (fresh (Some 8%positive)) [Call_init_poolmanager ∅]))%list
    = [old_urllib3_warning; old_urllib3_warning].
Proof.
  destruct (urllib3_warning_once_per_instance "1.24.1") as (Hone & _ & Htwo).
  split.
  - apply (Hone (Some 7%positive)). split; [eauto|]. split; reflexivity.
  - apply Htwo; reflexivity.
Defined.

(** C10. In [__warn_if_old_urllib3] a component of the version string
    that [int] rejects counts as 0, a component that [int] accepts counts
    as its value, and an instance that has not warned yet warns exactly
    when the tuple of these components is lexicographically less than
    (1, 24, 2).  So [1.24.2rc1] is read as (1, 24, 0) and triggers the
    warning although 1.24.2 does not. *)
Theorem old_urllib3_test_is_lexicographic :
  (forall s : string, Py.int s = None -> silent_int s = 0) /\
  (forall (s : string) (n : Z), Py.int s = Some n -> silent_int s = n) /\
  (forall (version : string) (ctx : option SSLContext),
     snd (__warn_if_old_urllib3 version (fresh ctx)) = [old_urllib3_warning] <->
     PyFacts.lex_less (components version) [1; 24; 2]) /\
  (forall (version : string) (ctx : option SSLContext),
     snd (__warn_if_old_urllib3 version (fresh ctx)) = [] <->
     ~ PyFacts.lex_less (components version) [1; 24; 2]) /\
  components "1.24.2rc1" = [1; 24; 0] /\
  snd (__warn_if_old_urllib3 "1.24.2rc1" (fresh None)) = [old_urllib3_warning] /\
  snd (__warn_if_old_urllib3 "1.24.2" (fresh None)) = [].
Proof.
  split; [|split; [|split; [|split; [|split; [|split]]]]].
  - intros s H. unfold silent_int. rewrite H. reflexivity.
  - intros s n H. unfold silent_int. rewrite H. reflexivity.
  - intros version ctx. rewrite warn_first by reflexivity. simpl.
    rewrite <- PyFacts.tuple_lt_spec, <- old_urllib3_components.
    destruct (old_urllib3 version); split; done.
  - intros version ctx. rewrite warn_first by reflexivity. simpl.
    rewrite <- PyFacts.tuple_lt_spec, <- old_urllib3_components.
    destruct (old_urllib3 version); split; try done.
  - reflexivity.
  - reflexivity.
  - reflexivity.
Qed.

End TLSContextBinding.

(** ** URLLibAdapter: properties *)

Module URLLibAdapterFacts.

Import URLLibAdapter.

(** The classification of a request failure, by the words of the
    specification, in its order. *)
Definition classify_request_failure (error : PyExc) : GeopyError :=
  let message := error_message error in
  if isinstance error URLError && Py.str_in "timed out" message
  then GeocoderTimedOut "Service timed out"
  else if isinstance error URLError && Py.str_in "unreachable" message
  then GeocoderUnavailable "Service not available"
  else if isinstance error SocketTimeout
  then GeocoderTimedOut "Service timed out"
  else if isinstance error SSLError && Py.str_in "timed out" message
  then GeocoderTimedOut "Service timed out"
  else GeocoderServiceError message.

(** The errors a failed request may end in. *)
Definition request_failure_kind (g : GeopyError) : Prop :=
  match g with
  | GeocoderTimedOut _ | GeocoderUnavailable _ | GeocoderServiceError _
  | AdapterHTTPError _ _ _ => True
  | GeocoderParseError _ => False
  end.

Section Facts.

Variable Seconds : Type.
Variable opener_open : list Handler -> Request -> Seconds -> PyResult Page.
Variable str_decode : list byte -> string -> PyResult string.
Variable json_loads : string -> PyResult Json.

Abbreviation urlopen := (urlopen Seconds opener_open).
Abbreviation get_text := (get_text Seconds opener_open str_decode).
Abbreviation get_json := (get_json Seconds opener_open str_decode json_loads).
Abbreviation _decode_page := (_decode_page str_decode).
Abbreviation _read_http_error_body := (_read_http_error_body str_decode).

Lemma get_text_request (self : t) url timeout headers :
  get_text self url timeout headers =
    match urlopen self {| req_url := url; req_headers := headers |} timeout with
    | Exn (HTTPError a s fp) =>
        Raises (AdapterHTTPError (error_message (HTTPError a s fp))
                  (page_code fp) (_read_http_error_body fp))
    | Exn error =>
        Raises
          (let message := error_message error in
           if isinstance error URLError then
             if Py.str_in "timed out" message
             then GeocoderTimedOut "Service timed out"
             else if Py.str_in "unreachable" message
             then GeocoderUnavailable "Service not available"
             else GeocoderServiceError message
           else if isinstance error SocketTimeout
           then GeocoderTimedOut "Service timed out"
           else if isinstance error SSLError then
             if Py.str_in "timed out" message
             then GeocoderTimedOut "Service timed out"
             else GeocoderServiceError message
           else GeocoderServiceError message)
    | Ok page =>
        bind (_decode_page page) (fun text =>
          if 400 <=? page_code page
          then Raises (AdapterHTTPError "Non-successful status code"
                         (page_code page) (Some text))
          else Returns text)
    end.
Proof.
  unfold URLLibAdapter.get_text.
  destruct (urlopen self _ timeout) as [page|[a s fp|mro a s]]; try reflexivity.
  cbv zeta.
  repeat match goal with |- context [if ?b then _ else _] => destruct b end;
    reflexivity.
Qed.

(** A status delivered by an [HTTPError] is never masked: whatever
    happens while the body is read or decoded, the call fails with
    [AdapterHTTPError] and the code; the body is absent exactly when
    [_decode_page] fails. *)
Lemma http_error_status_not_masked (self : t) url timeout headers a s fp :
  urlopen self {| req_url := url; req_headers := headers |} timeout
    = Exn (HTTPError a s fp) ->
  exists body,
    get_text self url timeout headers =
      Raises (AdapterHTTPError (error_message (HTTPError a s fp))
                (page_code fp) body) /\
    (body = None <-> forall text, _decode_page fp <> Returns text).
Proof.
  intros H. rewrite get_text_request, H. eexists. split; [reflexivity|].
  unfold URLLibAdapter._read_http_error_body.
  destruct (_decode_page fp) as [text|e|e]; split; try done.
  intros Hno. contradiction (Hno text). reflexivity.
Qed.

(** A status delivered by a returned response is checked after the
    body is decoded: a failure of [_decode_page] is the failure of the
    call, whatever the status. *)
Lemma returned_status_checked_after_decoding (self : t) url timeout headers page :
  urlopen self {| req_url := url; req_headers := headers |} timeout = Ok page ->
  (forall e, _decode_page page = Raises e ->
     get_text self url timeout headers = Raises e) /\
  (forall e, _decode_page page = Propagates e ->
     get_text self url timeout headers = Propagates e) /\
  (forall text, _decode_page page = Returns text -> 400 <= page_code page ->
     get_text self url timeout headers =
       Raises (AdapterHTTPError "Non-successful status code"
                 (page_code page) (Some text))).
Proof.
  intros H. rewrite get_text_request, H.
  split; [|split]; intros x Hx; rewrite Hx; try reflexivity.
  intros Hcode. simpl. apply Z.leb_le in Hcode. rewrite Hcode. reflexivity.
Qed.

(** The classification of request failures.  When the request fails
    before a response is obtained, the call fails with one of geopy's
    errors, never with the exception of the library, and this error is a
    timeout, an unavailable service, a service error or an HTTP status
    error.  For a failure that is not an [HTTPError], the error is the one
    the specification lists, in its order: a [URLError] with [timed out]
    in the message is [GeocoderTimedOut], a [URLError] with [unreachable]
    is [GeocoderUnavailable], a socket timeout is [GeocoderTimedOut], an
    SSL error with [timed out] is [GeocoderTimedOut], anything else is
    [GeocoderServiceError] with the message.  ([URLError] and
    [socket.timeout] are unrelated classes: no exception is an instance
    of both.) *)
Theorem request_failure_classified (self : t) url timeout headers error :
  urlopen self {| req_url := url; req_headers := headers |} timeout = Exn error ->
  (exists g, get_text self url timeout headers = Raises g /\
             request_failure_kind g) /\
  (is_HTTPError error = false ->
   (isinstance error URLError = true -> isinstance error SocketTimeout = false) ->
   get_text self url timeout headers = Raises (classify_request_failure error)).
Proof.
  intros H. rewrite get_text_request, H. split.
  - destruct error as [a s fp|mro a s]; [eexists; split; [reflexivity|exact I]|].
    eexists. split; [reflexivity|]. cbv zeta.
    repeat match goal with |- context [if ?b then _ else _] => destruct b end;
      exact I.
  - intros Hhttp Hclasses. destruct error as [a s fp|mro a s]; [discriminate|].
    unfold classify_request_failure. cbv zeta. f_equal.
    set (m := error_message (Exc mro a s)).
    destruct (isinstance (Exc mro a s) URLError) eqn:Hurl.
    + rewrite (Hclasses eq_refl).
      destruct (Py.str_in "timed out" m), (Py.str_in "unreachable" m),
        (isinstance (Exc mro a s) SSLError); reflexivity.
    + destruct (isinstance (Exc mro a s) SocketTimeout),
        (isinstance (Exc mro a s) SSLError), (Py.str_in "timed out" m);
        reflexivity.
Qed.

End Facts.

(** *** The opener of the adapter *)

(** The handlers of the library in the opener of the adapter, in the
    order of [opener.handlers]: the defaults but the two whose classes
    the adapter passes itself, and the HTTPS handler it passes. *)
Definition library_handlers (ctx : option SSLContext) : list Handler :=
  [ OtherHandler "UnknownHandler"; OtherHandler "HTTPHandler";
    OtherHandler "HTTPDefaultErrorHandler"; OtherHandler "HTTPRedirectHandler";
    OtherHandler "FTPHandler"; OtherHandler "FileHandler";
    OtherHandler "DataHandler"; HTTPSHandler ctx;
    OtherHandler "HTTPErrorProcessor" ].

Lemma opener_handlers (env : Proxies) (proxies : option Proxies)
    (ctx : option SSLContext) :
  opener (__init__ env proxies ctx) =
    if added (new_ProxyHandler env proxies)
    then new_ProxyHandler env proxies :: library_handlers ctx
    else library_handlers ctx.
Proof.
  unfold __init__, build_opener, new_ProxyHandler. cbn [opener].
  set (m := default env proxies).
  assert (Hdefaults :
    filter (fun d => existsb (same_class d) [HTTPSHandler ctx; ProxyHandler m] = false)
      (default_handlers env)
    = [ OtherHandler "UnknownHandler"; OtherHandler "HTTPHandler";
        OtherHandler "HTTPDefaultErrorHandler"; OtherHandler "HTTPRedirectHandler";
        OtherHandler "FTPHandler"; OtherHandler "FileHandler";
        OtherHandler "HTTPErrorProcessor"; OtherHandler "DataHandler" ])
    by reflexivity.
  rewrite Hdefaults. cbn [app foldl].
  change (add_handler (ProxyHandler m) (library_handlers ctx) =
          if added (ProxyHandler m)
          then ProxyHandler m :: library_handlers ctx
          else library_handlers ctx).
  unfold add_handler. destruct (added (ProxyHandler m)); reflexivity.
Qed.

Lemma added_empty : added (ProxyHandler ∅) = false.
Proof. reflexivity. Qed.

Lemma insort_elem_of (h x : Handler) (l : list Handler) :
  x ∈ insort h l <-> x = h \/ x ∈ l.
Proof.
  induction l as [|e l IH]; simpl.
  - rewrite list_elem_of_singleton. split; [auto|]. intros [H|H]; [exact H|inversion H].
  - destruct (handler_order h <? handler_order e).
    + rewrite elem_of_cons. reflexivity.
    + rewrite !elem_of_cons, IH. tauto.
Qed.

Lemma build_opener_keeps (env : Proxies) (handlers : list Handler) (name : string) :
  OtherHandler name ∈ default_handlers env ->
  OtherHandler name ∈ build_opener env handlers.
Proof.
  intros Hdefault. unfold build_opener. cbv zeta.
  set (defaults := filter _ (default_handlers env)).
  assert (Hin : OtherHandler name ∈ (defaults ++ handlers)%list).
  { apply elem_of_app.
    destruct (existsb (same_class (OtherHandler name)) handlers) eqn:Hgiven.
    - right. apply existsb_exists in Hgiven as (h & Hh & Hsame).
      destruct h as [c|m|n]; try discriminate. simpl in Hsame.
      apply bool_decide_eq_true_1 in Hsame. subst n.
      apply list_elem_of_In. exact Hh.
    - left. apply list_elem_of_filter. split; assumption. }
  clearbody defaults. revert Hin. generalize (defaults ++ handlers)%list.
  assert (Hfold : forall (l acc : list Handler),
            OtherHandler name ∈ acc \/ OtherHandler name ∈ l ->
            OtherHandler name ∈ foldl (fun opener h => add_handler h opener) acc l).
  { induction l as [|h l IH]; intros acc [H|H]; simpl.
    - exact H.
    - inversion H.
    - apply IH. left. unfold add_handler.
      destruct (added h); [apply insort_elem_of; auto|exact H].
    - apply elem_of_cons in H as [<-|H]; apply IH; [left|right; exact H].
      unfold add_handler. simpl. apply insort_elem_of. auto. }
  intros l Hl. apply Hfold. auto.
Qed.

(** Every opener of [build_opener] holds the two handlers that turn a
    status that is not 2xx into an [HTTPError]. *)
Lemma build_opener_error_handlers (env : Proxies) (handlers : list Handler) :
  existsb (is_handler "HTTPErrorProcessor") (build_opener env handlers) = true /\
  existsb (is_handler "HTTPDefaultErrorHandler") (build_opener env handlers) = true.
Proof.
  split; apply existsb_exists.
  - exists (OtherHandler "HTTPErrorProcessor"). split; [|reflexivity].
    apply list_elem_of_In, build_opener_keeps. unfold default_handlers.
    rewrite !elem_of_cons. tauto.
  - exists (OtherHandler "HTTPDefaultErrorHandler"). split; [|reflexivity].
    apply list_elem_of_In, build_opener_keeps. unfold default_handlers.
    rewrite !elem_of_cons. tauto.
Qed.

Section Opener.

Variable Seconds : Type.
Variable exchange : list Handler -> Request -> Seconds -> PyResult Page.
Variable http_error_args : Page -> list string.
Variable http_error_str : Page -> string.

Abbreviation director :=
  (OpenerDirector_open Seconds exchange http_error_args http_error_str).
Abbreviation raised := (http_error_default http_error_args http_error_str).

(** [urlopen] of an adapter: what the opener of the library makes of the
    exchange. *)
Lemma urlopen_exchange (env : Proxies) (proxies : option Proxies)
    (ctx : option SSLContext) (req : Request) (timeout : Seconds) :
  urlopen Seconds director (__init__ env proxies ctx) req timeout =
    match exchange (opener (__init__ env proxies ctx)) req timeout with
    | Exn e => Exn e
    | Ok response =>
        if (200 <=? page_code response) && (page_code response <? 300)
        then Ok response
        else Exn (raised response)
    end.
Proof.
  unfold urlopen, OpenerDirector_open, http_response.
  destruct (build_opener_error_handlers env
              [HTTPSHandler ctx; new_ProxyHandler env proxies]) as [Hp Hd].
  change (build_opener env [HTTPSHandler ctx; new_ProxyHandler env proxies])
    with (opener (__init__ env proxies ctx)) in Hp, Hd.
  rewrite Hp, Hd. reflexivity.
Qed.

End Opener.

(** An adapter built with an empty proxy mapping and the default trust. *)
Definition adapter : t := __init__ ∅ (Some ∅) None.

(** What [urlopen] raises when the connection attempt times out. *)
Definition timed_out_error : PyExc :=
  Exc [URLError; OtherClass "OSError"] ["timed out"] "<urlopen error timed out>".

Lemma request_failure_classified_witness :
  get_text unit (Sample.answers (Exn timed_out_error)) Sample.str_decode
    adapter "https://example.org/" tt []
    = Raises (GeocoderTimedOut "Service timed out").
Proof.
  apply (request_failure_classified unit (Sample.answers (Exn timed_out_error))
           Sample.str_decode adapter "https://example.org/" tt [] timed_out_error).
  - reflexivity.
  - reflexivity.
  - intros _. reflexivity.
Defined.

Definition found_page : Page :=
  {| page_charset := None; page_read := Some (Sample.bytes_of "[1, 2]");
     page_code := 200 |}.

(** A body that is not UTF-8: the byte 0xFF. *)
Definition undecodable_page (code : Z) : Page :=
  {| page_charset := None; page_read := Some [xff]; page_code := code |}.

Lemma http_error_status_not_masked_witness :
  exists body,
    get_text unit
      (Sample.answers
         (Exn (HTTPError [] "HTTP Error 404: Not Found" (undecodable_page 404))))
      Sample.str_decode adapter "https://example.org/" tt []
      = Raises (AdapterHTTPError "HTTP Error 404: Not Found" 404 body).
Proof.
  destruct (http_error_status_not_masked unit
              (Sample.answers
                 (Exn (HTTPError [] "HTTP Error 404: Not Found" (undecodable_page 404))))
              Sample.str_decode adapter "https://example.org/" tt []
              [] "HTTP Error 404: Not Found" (undecodable_page 404) eq_refl)
    as (body & Hbody & _).
  exists body. exact Hbody.
Defined.

(** A response whose content-type header names a charset for which
    Python has no codec. *)
Definition unknown_charset_page : Page :=
  {| page_charset := Some "utf8mb4"; page_read := Some (Sample.bytes_of "[1, 2]");
     page_code := 200 |}.

(** C3. At a response with status 200 whose content-type header names an
    unknown charset, [get_text] ends with the [LookupError] of the
    decoder: [_decode_page] catches [ValueError] only, so an exception of
    the library leaves the call, although every failure of the request
    itself is classified. *)
Theorem unknown_charset_error_propagates :
  get_text unit (Sample.answers (Ok unknown_charset_page)) Sample.str_decode
    adapter "https://example.org/" tt []
    = Propagates (Sample.unknown_encoding "utf8mb4") /\
  isinstance (Sample.unknown_encoding "utf8mb4") ValueError = false /\
  isinstance (Sample.unknown_encoding "utf8mb4") LookupError = true.
Proof. split; [|split]; reflexivity. Qed.

End URLLibAdapterFacts.

(** ** RequestsAdapter: properties *)

Module RequestsAdapterFacts.

Import RequestsAdapter.

(** The classification of a failed GET, by the words of the
    specification, in its order. *)
Definition classify_session_failure (error : PyExc) : GeopyError :=
  let message := exc_str error in
  if isinstance error SocketTimeout
  then GeocoderTimedOut "Service timed out"
  else if isinstance error SSLError && Py.str_in "timed out" message
  then GeocoderTimedOut "Service timed out"
  else if isinstance error requests_ConnectionError
  then GeocoderUnavailable message
  else if isinstance error requests_Timeout
  then GeocoderTimedOut "Service timed out"
  else GeocoderServiceError message.

(** The methods an instance of [RequestsAdapter] has, the constructor
    apart. *)
Inductive Method := M__del__ | M_get_text | M_get_json | M__request.

Definition method_name (m : Method) : string :=
  match m with
  | M__del__ => "__del__"
  | M_get_text => "get_text"
  | M_get_json => "get_json"
  | M__request => "_request"
  end.

(** [__del__] is the hook the interpreter runs when it collects the
    object. *)
Definition is_finalizer (m : Method) : bool :=
  bool_decide (method_name m = "__del__").

(** [session.close()] as [requests] documents it: it closes the
    adapters of the session, so no pooled connection is left, and it
    returns; the same on a session that is closed already. *)
Definition closes (session_close : Session -> Session * option PyExc) : Prop :=
  forall s, pool (fst (session_close s)) = [] /\ snd (session_close s) = None.

Section Facts.

Variable Seconds : Type.
Variable session_get :
  Session -> string -> Seconds -> Headers -> list string * PyResult Response.
Variable session_close : Session -> Session * option PyExc.

Abbreviation _request := (_request Seconds session_get).
Abbreviation get_text := (get_text Seconds session_get).
Abbreviation get_json := (get_json Seconds session_get).
Abbreviation __del__ := (__del__ session_close).

(** The instance after a call of the method [m]. *)
Definition after (m : Method) (self : t) (url : string) (timeout : Seconds)
    (headers : Headers) : t :=
  match m with
  | M__del__ => fst (__del__ self)
  | M_get_text => fst (get_text self url timeout headers)
  | M_get_json => fst (get_json self url timeout headers)
  | M__request => fst (_request self url timeout headers)
  end.

Lemma request_raised (self : t) url timeout headers pool' error :
  session_get (session self) url timeout headers = (pool', Exn error) ->
  _request self url timeout headers =
    ({| session := set_pool pool' (session self) |},
     Raises
       (let message := exc_str error in
        if isinstance error SocketTimeout
        then GeocoderTimedOut "Service timed out"
        else if isinstance error SSLError then
          if Py.str_in "timed out" message
          then GeocoderTimedOut "Service timed out"
          else GeocoderServiceError message
        else if isinstance error requests_ConnectionError
        then GeocoderUnavailable message
        else if isinstance error requests_Timeout
        then GeocoderTimedOut "Service timed out"
        else GeocoderServiceError message)).
Proof.
  intros H. unfold RequestsAdapter._request. rewrite H. cbv zeta. f_equal.
  repeat match goal with |- context [if ?b then _ else _] => destruct b end;
    reflexivity.
Qed.

Lemma request_answered (self : t) url timeout headers pool' resp :
  session_get (session self) url timeout headers = (pool', Ok resp) ->
  _request self url timeout headers =
    ({| session := set_pool pool' (session self) |},
     if 400 <=? status_code resp
     then Raises (AdapterHTTPError "Non-successful status code"
                    (status_code resp) (Some (text resp)))
     else Returns resp).
Proof. intros H. unfold RequestsAdapter._request. rewrite H. reflexivity. Qed.

Lemma get_text_of_request (self : t) url timeout headers :
  get_text self url timeout headers =
    (fst (_request self url timeout headers),
     bind (snd (_request self url timeout headers))
       (fun resp => Returns (text resp))).
Proof.
  unfold RequestsAdapter.get_text.
  destruct (_request self url timeout headers). reflexivity.
Qed.

Lemma get_json_of_request (self : t) url timeout headers :
  get_json self url timeout headers =
    (fst (_request self url timeout headers),
     bind (snd (_request self url timeout headers))
       (fun resp =>
          match json resp with
          | Ok v => Returns v
          | Exn e =>
              if isinstance e ValueError
              then Raises (deserialize_error (text resp))
              else Propagates e
          end)).
Proof.
  unfold RequestsAdapter.get_json.
  destruct (_request self url timeout headers). reflexivity.
Qed.

(** C4. When the GET through the session raises, [_request], and with
    it [get_text] and [get_json], fails with the error the
    specification lists, in its order: a socket timeout is
    [GeocoderTimedOut], an SSL error with [timed out] in the message is
    [GeocoderTimedOut], a [requests.ConnectionError] is
    [GeocoderUnavailable] with the message, a [requests.Timeout] is
    [GeocoderTimedOut], anything else is [GeocoderServiceError] with
    the message.  ([ssl.SSLError] is unrelated to the exception classes
    of [requests]: no exception is an instance of both.)  When a
    response with a status of 400 or more is obtained, the three fail
    with [AdapterHTTPError] carrying the status and the text of the
    response. *)
Theorem session_failure_classified (self : t) url timeout headers :
  (forall pool' error,
     session_get (session self) url timeout headers = (pool', Exn error) ->
     (isinstance error SSLError = true ->
      isinstance error requests_ConnectionError = false /\
      isinstance error requests_Timeout = false) ->
     snd (_request self url timeout headers)
       = Raises (classify_session_failure error) /\
     snd (get_text self url timeout headers)
       = Raises (classify_session_failure error) /\
     snd (get_json self url timeout headers)
       = Raises (classify_session_failure error)) /\
  (forall pool' resp,
     session_get (session self) url timeout headers = (pool', Ok resp) ->
     400 <= status_code resp ->
     let failure :=
       AdapterHTTPError "Non-successful status code"
         (status_code resp) (Some (text resp)) in
     snd (_request self url timeout headers) = Raises failure /\
     snd (get_text self url timeout headers) = Raises failure /\
     snd (get_json self url timeout headers) = Raises failure).
Proof.
  split.
  - intros pool' error H Hclasses.
    rewrite get_text_of_request, get_json_of_request, (request_raised _ _ _ _ _ _ H).
    cbv zeta. simpl snd.
    assert (Heq :
      (if isinstance error SocketTimeout
       then GeocoderTimedOut "Service timed out"
       else if isinstance error SSLError then
              if Py.str_in "timed out" (exc_str error)
              then GeocoderTimedOut "Service timed out"
              else GeocoderServiceError (exc_str error)
            else if isinstance error requests_ConnectionError
                 then GeocoderUnavailable (exc_str error)
                 else if isinstance error requests_Timeout
                      then GeocoderTimedOut "Service timed out"
                      else GeocoderServiceError (exc_str error))
      = classify_session_failure error).
    { unfold classify_session_failure. cbv zeta.
      destruct (isinstance error SocketTimeout); [reflexivity|].
      destruct (isinstance error SSLError); [|reflexivity].
      destruct (Hclasses eq_refl) as [-> ->].
      destruct (Py.str_in "timed out" (exc_str error)); reflexivity. }
    rewrite Heq. auto.
  - intros pool' resp H Hcode failure. subst failure.
    rewrite get_text_of_request, get_json_of_request, (request_answered _ _ _ _ _ _ H).
    apply Z.leb_le in Hcode. rewrite Hcode. auto.
Qed.

(** Only the finalizer leaves the session without pooled connections
    after every call. *)
Lemma releasing_method_is_finalizer_here (m : Method) :
  (forall self url timeout headers,
     pool (session (after m self url timeout headers)) = []) ->
  (exists (self : t) (url : string) (timeout : Seconds) (headers : Headers)
          pool' r,
     session_get (session self) url timeout headers = (pool', r) /\ pool' <> []) ->
  is_finalizer m = true.
Proof.
  intros Hrel (self & url & timeout & headers & pool' & r & Hget & Hpool).
  destruct m; [reflexivity| | |]; exfalso; apply Hpool;
    specialize (Hrel self url timeout headers); simpl in Hrel;
    rewrite ?get_text_of_request, ?get_json_of_request in Hrel; simpl in Hrel;
    destruct r as [resp|error];
    rewrite ?(request_answered _ _ _ _ _ _ Hget),
            ?(request_raised _ _ _ _ _ _ Hget) in Hrel;
    exact Hrel.
Qed.

End Facts.

(** A session that keeps the connection of each request alive and
    answers [null] with status 200. *)
Definition keepalive_get (s : Session) (url : string) (timeout : unit)
    (headers : Headers) : list string * PyResult Response :=
  (url :: pool s, Ok {| status_code := 200; text := "null"; json := Ok JNull |}).

(** A session whose connection attempt times out. *)
Definition connect_timeout : PyExc :=
  Exc [OtherClass "ConnectTimeout"; requests_ConnectionError; requests_Timeout]
      ["Max retries exceeded"] "Max retries exceeded".

Definition failing_get (s : Session) (url : string) (timeout : unit)
    (headers : Headers) : list string * PyResult Response :=
  (pool s, Exn connect_timeout).

Definition not_found_get (s : Session) (url : string) (timeout : unit)
    (headers : Headers) : list string * PyResult Response :=
  (url :: pool s,
   Ok {| status_code := 404; text := "not found"; json := Exn Sample.JSONDecodeError |}).

Definition pool_close (s : Session) : Session * option PyExc :=
  (set_pool [] s, None).

(** The adapter built with an empty proxy mapping and no custom context. *)
Definition adapter : t :=
  match fst (RequestsAdapter.__init__ true "1.26.18" (Some ∅) None) with
  | Returns a => a
  | _ => {| session := Session_new |}
  end.

Lemma session_failure_classified_witness :
  snd (_request unit failing_get adapter "https://example.org/" tt [])
    = Raises (GeocoderUnavailable "Max retries exceeded") /\
  snd (get_text unit not_found_get adapter "https://example.org/" tt [])
    = Raises (AdapterHTTPError "Non-successful status code" 404 (Some "not found")).
Proof.
  destruct (session_failure_classified unit failing_get adapter
              "https://example.org/" tt []) as [Hraised _].
  destruct (session_failure_classified unit not_found_get adapter
              "https://example.org/" tt []) as [_ Hanswered].
  split.
  - apply (Hraised (pool (session adapter)) connect_timeout eq_refl).
    intros H. discriminate H.
  - apply (Hanswered ("https://example.org/" :: pool (session adapter))
             {| status_code := 404; text := "not found";
                json := Exn Sample.JSONDecodeError |} eq_refl).
    discriminate.
Defined.

(** A method releases the pooled connections when, whatever the network
    does and for every [session.close()] that closes, the session holds
    no connection after the call. *)
Definition releases_pool (m : Method) : Prop :=
  forall (Seconds : Type) session_get session_close,
    closes session_close ->
    forall self url timeout headers,
      pool (session (after Seconds session_get session_close m
                       self url timeout headers)) = [].

(** The adapter offers a teardown operation other than its finalizer. *)
Definition explicit_teardown_provided : Prop :=
  exists m : Method, is_finalizer m = false /\ releases_pool m.

Lemma pool_close_closes : closes pool_close.
Proof. intros s. split; reflexivity. Qed.

Lemma releasing_method_is_finalizer (m : Method) :
  releases_pool m -> is_finalizer m = true.
Proof.
  intros Hrel.
  apply (releasing_method_is_finalizer_here unit keepalive_get pool_close m).
  - apply Hrel, pool_close_closes.
  - exists adapter, "https://example.org/", tt, [].
    eexists _, _. split; [reflexivity|]. discriminate.
Qed.

(** C9, as the code has it.  The connections of the session are
    released by [__del__], the finalizer: given that [session.close()]
    closes, [__del__] returns and leaves no pooled connection, and run a
    second time it returns again and the pool stays empty.  No other
    method of the adapter releases the connections. *)
Theorem finalizer_releases_pool
    (session_close : Session -> Session * option PyExc) (self : t) :
  closes session_close ->
  snd (__del__ session_close self) = Returns tt /\
  pool (session (fst (__del__ session_close self))) = [] /\
  snd (__del__ session_close (fst (__del__ session_close self))) = Returns tt /\
  pool (session (fst (__del__ session_close (fst (__del__ session_close self))))) = [] /\
  (forall m : Method, releases_pool m -> m = M__del__).
Proof.
  intros Hclose.
  assert (Hdel : forall a : t,
    snd (__del__ session_close a) = Returns tt /\
    pool (session (fst (__del__ session_close a))) = []).
  { intros a. unfold RequestsAdapter.__del__.
    destruct (Hclose (session a)) as [Hpool Hret].
    destruct (session_close (session a)) as [s r]. simpl in *. subst r.
    split; [reflexivity | exact Hpool]. }
  destruct (Hdel self) as [H1 H2].
  destruct (Hdel (fst (__del__ session_close self))) as [H3 H4].
  repeat (split; [assumption|]).
  intros m Hm. apply releasing_method_is_finalizer in Hm.
  destruct m; [reflexivity|discriminate..].
Qed.

Lemma finalizer_releases_pool_witness :
  snd (__del__ pool_close
         (fst (get_text unit keepalive_get adapter "https://example.org/" tt [])))
    = Returns tt /\
  pool (session (fst (__del__ pool_close
         (fst (get_text unit keepalive_get adapter "https://example.org/" tt [])))))
    = [].
Proof.
  destruct (finalizer_releases_pool pool_close
              (fst (get_text unit keepalive_get adapter "https://example.org/" tt []))
              pool_close_closes) as (H1 & H2 & _).
  split; assumption.
Defined.

(** C9, as stated, fails: every method that releases the pooled
    connections is the finalizer. *)
Lemma no_explicit_teardown : ~ explicit_teardown_provided.
Proof.
  intros (m & Hm & Hrel). apply releasing_method_is_finalizer in Hrel.
  congruence.
Qed.

End RequestsAdapterFacts.

(** ** Both adapters *)

Module Adapters.









(** The mapping a handler of the opener sends requests through. *)
Definition handler_proxies (h : URLLibAdapter.Handler) : option Proxies :=
  match h with
  | URLLibAdapter.ProxyHandler m => Some m
  | _ => None
  end.

(** The proxy mappings the requests of an opener go through: those of
    its proxy handlers. *)
Definition opener_proxies (opener : list URLLibAdapter.Handler) : list Proxies :=
  omap handler_proxies opener.

(** What [OpenerDirector.add_handler] leaves of the handler of a mapping:
    the mapping, when one of its keys gives the handler a method that is
    registered, and nothing otherwise. *)
Definition registered (m : Proxies) : list Proxies :=
  if URLLibAdapter.added (URLLibAdapter.ProxyHandler m) then [m] else [].

Lemma registered_scheme (m : Proxies) (scheme url : string) :
  m !! scheme = Some url ->
  URLLibAdapter.registers (Py.lower scheme +:+ "_open") = true ->
  registered m = [m].
Proof.
  intros Hm Hreg. unfold registered.
  assert (Hadded : URLLibAdapter.added (URLLibAdapter.ProxyHandler m) = true);
    [|rewrite Hadded; reflexivity].
  apply existsb_exists. exists (Py.lower scheme +:+ "_open"). split; [|exact Hreg].
  apply list_elem_of_In. unfold URLLibAdapter.proxy_methods.
  apply list_elem_of_fmap. exists (scheme, url). split; [reflexivity|].
  apply elem_of_map_to_list. exact Hm.
Qed.

Lemma adapter_opener_proxies (env : Proxies) (proxies : option Proxies)
    (ctx : option SSLContext) :
  opener_proxies (URLLibAdapter.opener (URLLibAdapter.__init__ env proxies ctx))
    = registered (default env proxies).
Proof.
  rewrite URLLibAdapterFacts.opener_handlers. unfold registered.
  unfold URLLibAdapter.new_ProxyHandler.
  destruct (URLLibAdapter.added _); reflexivity.
Qed.

(** C6, as the code has it.  URLLibAdapter hands [build_opener] the
    handler of the given mapping, so the handler of the environment is
    never built; of the handler given, the opener keeps what
    [add_handler] registers: the opener sends requests through the given
    mapping when one of its keys names a scheme, as [http] and [https]
    do, and through no proxy at all when the mapping is empty, whatever the
    environment holds; without a mapping it is the mapping of the
    environment that is treated so.  The requests of [get_text] are made
    with these handlers: the call depends on the network only through
    openers whose proxies are the registered ones.  RequestsAdapter, given
    a mapping, also the empty one, turns [trust_env] off and stores
    exactly that mapping in the session, and its requests are made through
    a session with these settings; [trust_env] stays on only when no
    mapping is given. *)
Theorem explicit_proxies_applied :
  (forall (env : Proxies) (proxies : option Proxies) (ctx : option SSLContext),
     opener_proxies (URLLibAdapter.opener (URLLibAdapter.__init__ env proxies ctx))
       = match proxies with
         | Some m => registered m
         | None => registered env
         end) /\
  registered ∅ = [] /\
  (forall (m : Proxies) (scheme url : string),
     m !! scheme = Some url -> scheme = "http" \/ scheme = "https" ->
     registered m = [m]) /\
  (forall (Seconds : Type) exchange exchange' http_error_args http_error_str
          str_decode (env m : Proxies) (ctx : option SSLContext)
          url (timeout : Seconds) headers,
     (forall opener req t,
        opener_proxies opener = registered m ->
        exchange opener req t = exchange' opener req t) ->
     URLLibAdapter.get_text Seconds
       (URLLibAdapter.OpenerDirector_open Seconds exchange http_error_args
          http_error_str)
       str_decode (URLLibAdapter.__init__ env (Some m) ctx) url timeout headers
     = URLLibAdapter.get_text Seconds
         (URLLibAdapter.OpenerDirector_open Seconds exchange' http_error_args
            http_error_str)
         str_decode (URLLibAdapter.__init__ env (Some m) ctx) url timeout headers) /\
  (forall (urllib3_version : string) (proxies : option Proxies)
          (ctx : option SSLContext),
     exists self ws,
       RequestsAdapter.__init__ true urllib3_version proxies ctx = (Returns self, ws) /\
       RequestsAdapter.proxies (RequestsAdapter.session self) = proxies /\
       RequestsAdapter.trust_env (RequestsAdapter.session self)
         = match proxies with Some _ => false | None => true end) /\
  (forall (Seconds : Type) session_get session_get' (urllib3_version : string)
          (m : Proxies) (ctx : option SSLContext) self ws
          url (timeout : Seconds) headers,
     RequestsAdapter.__init__ true urllib3_version (Some m) ctx = (Returns self, ws) ->
     (forall s u t h,
        RequestsAdapter.trust_env s = false ->
        RequestsAdapter.proxies s = Some m ->
        session_get s u t h = session_get' s u t h) ->
     RequestsAdapter.get_text Seconds session_get self url timeout headers
       = RequestsAdapter.get_text Seconds session_get' self url timeout headers /\
     RequestsAdapter.get_json Seconds session_get self url timeout headers
       = RequestsAdapter.get_json Seconds session_get' self url timeout headers).
Proof.
  split; [|split; [|split; [|split; [|split]]]].
  - intros env proxies ctx. rewrite adapter_opener_proxies.
    destruct proxies; reflexivity.
  - reflexivity.
  - intros m scheme url Hm [->| ->]; apply (registered_scheme m _ url Hm);
      reflexivity.
  - intros Seconds exchange exchange' http_error_args http_error_str str_decode
      env m ctx url timeout headers Hsame.
    unfold URLLibAdapter.get_text. cbv zeta.
    rewrite !URLLibAdapterFacts.urlopen_exchange.
    rewrite (Hsame _ _ _ (adapter_opener_proxies env (Some m) ctx)).
    reflexivity.
  - intros urllib3_version proxies ctx. unfold RequestsAdapter.__init__. simpl.
    destruct (RequestsHTTPWithSSLContextAdapter.__init__ urllib3_version ctx)
      as [a ws].
    eexists _, _. split; [reflexivity|]. destruct proxies; split; reflexivity.
  - intros Seconds session_get session_get' urllib3_version m ctx self ws
      url timeout headers Hinit Hsame.
    assert (Hsession :
      RequestsAdapter.trust_env (RequestsAdapter.session self) = false /\
      RequestsAdapter.proxies (RequestsAdapter.session self) = Some m).
    { unfold RequestsAdapter.__init__ in Hinit. simpl in Hinit.
      destruct (RequestsHTTPWithSSLContextAdapter.__init__ urllib3_version ctx)
        as [a ws'].
      injection Hinit as <- _. split; reflexivity. }
    destruct Hsession as [Htrust Hproxies].
    unfold RequestsAdapter.get_text, RequestsAdapter.get_json,
      RequestsAdapter._request.
    rewrite (Hsame _ url timeout headers Htrust Hproxies). split; reflexivity.
Qed.

(** A mapping with a proxy for [http]. *)
Definition http_proxy : Proxies := {["http" := "http://proxy.example.org:3128"]}.

(** The proxies of an environment, for [https]. *)
Definition environment : Proxies := {["https" := "http://gateway.example.org:8080"]}.

Lemma explicit_proxies_applied_witness :
  opener_proxies
    (URLLibAdapter.opener (URLLibAdapter.__init__ environment (Some http_proxy) None))
    = [http_proxy] /\
  opener_proxies
    (URLLibAdapter.opener (URLLibAdapter.__init__ environment (Some ∅) None)) = [] /\
  opener_proxies
    (URLLibAdapter.opener (URLLibAdapter.__init__ environment None None))
    = [environment].
Proof.
  destruct explicit_proxies_applied as (Hopener & Hempty & Hscheme & _).
  split; [|split].
  - rewrite Hopener.
    apply (Hscheme http_proxy "http" "http://proxy.example.org:3128");
      [reflexivity | left; reflexivity].
  - rewrite Hopener. exact Hempty.
  - rewrite Hopener.
    apply (Hscheme environment "https" "http://gateway.example.org:8080");
      [reflexivity | right; reflexivity].
Defined.

(** C6, as stated, fails for URLLibAdapter: it does not always install a
    handler bound to the given mapping.  For the empty mapping the opener
    holds no proxy handler at all, because [add_handler] leaves out a
    handler without a registered method. *)
Lemma empty_mapping_installs_no_proxy_handler :
  URLLibAdapter.opener (URLLibAdapter.__init__ environment (Some ∅) None)
    = URLLibAdapterFacts.library_handlers None /\
  ~ (forall (env m : Proxies) (ctx : option SSLContext),
       URLLibAdapter.ProxyHandler m
         ∈ URLLibAdapter.opener (URLLibAdapter.__init__ env (Some m) ctx)).
Proof.
  split; [reflexivity|].
  intros Hclaim. specialize (Hclaim environment ∅ None).
  rewrite URLLibAdapterFacts.opener_handlers in Hclaim.
  change (URLLibAdapter.ProxyHandler ∅ ∈ URLLibAdapterFacts.library_handlers None)
    in Hclaim.
  unfold URLLibAdapterFacts.library_handlers in Hclaim.
  rewrite !elem_of_cons in Hclaim.
  repeat (destruct Hclaim as [Hclaim|Hclaim]; [discriminate|]).
  inversion Hclaim.
Qed.

End Adapters.

(** ** AdapterHTTPError: the initializer *)

Module AdapterHTTPErrorClass.

(** A Python value handed to the initializer. *)
Inductive PyVal :=
  | VNone
  | VInt (n : Z)
  | VStr (s : string).

(** An instance: the positional arguments kept by [Exception], and the
    two attributes. *)
Record t := { args : list PyVal; status_code : PyVal; text : PyVal }.

Definition KeyError (key : string) : PyExc :=
  Exc [OtherClass "KeyError"; LookupError] [key] ("'" +:+ key +:+ "'").

(** What [Exception.__init__] raises when it is given keyword arguments. *)
Definition no_keyword_arguments : PyExc :=
  Exc [OtherClass "TypeError"]
      ["AdapterHTTPError() takes no keyword arguments"]
      "AdapterHTTPError() takes no keyword arguments".

(** [kwargs.pop(key)]: the value and the dict without the key. *)
Definition pop (key : string) (kwargs : gmap string PyVal)
    : PyResult (PyVal * gmap string PyVal) :=
  match kwargs !! key with
  | Some v => Ok (v, delete key kwargs)
  | None => Exn (KeyError key)
  end.

Definition __init__ (args : list PyVal) (kwargs : gmap string PyVal) : PyResult t :=
  match pop "status_code" kwargs with
  | Exn e => Exn e
  | Ok (status_code, kwargs) =>
      match pop "text" kwargs with
      | Exn e => Exn e
      | Ok (text, kwargs) =>
          if decide (kwargs = ∅)
          then Ok {| args := args; status_code := status_code; text := text |}
          else Exn no_keyword_arguments
      end
  end.

Lemma two_keys_left (kwargs : gmap string PyVal) (sc tx : PyVal) :
  kwargs !! "status_code" = Some sc -> kwargs !! "text" = Some tx ->
  delete "text" (delete "status_code" kwargs) = ∅ ->
  kwargs = {["status_code" := sc; "text" := tx]}.
Proof.
  intros Hsc Htx Hempty. apply map_eq. intros k.
  destruct (decide (k = "status_code")) as [->|Hk1].
  - rewrite Hsc, lookup_insert_eq. reflexivity.
  - rewrite lookup_insert_ne by congruence.
    destruct (decide (k = "text")) as [->|Hk2].
    + rewrite Htx, lookup_singleton_eq. reflexivity.
    + rewrite lookup_singleton_ne by congruence.
      assert (H : delete "text" (delete "status_code" kwargs) !! k = None)
        by (rewrite Hempty; apply lookup_empty).
      rewrite !lookup_delete_ne in H by congruence. exact H.
Qed.

(** The initializer succeeds exactly on the keyword arguments
    [status_code] and [text] and no other; the instance then holds the
    positional arguments and the two values. *)
Theorem init_accepts_exactly_status_code_and_text
    (args : list PyVal) (kwargs : gmap string PyVal) (e : t) :
  __init__ args kwargs = Ok e <->
  kwargs = {["status_code" := status_code e; "text" := text e]} /\
  AdapterHTTPErrorClass.args e = args.
Proof.
  unfold __init__, pop. split.
  - destruct (kwargs !! "status_code") as [sc|] eqn:Hsc; [|discriminate].
    rewrite lookup_delete_ne by discriminate.
    destruct (kwargs !! "text") as [tx|] eqn:Htx; [|discriminate].
    destruct (decide (delete "text" (delete "status_code" kwargs) = ∅))
      as [Hempty|]; [|discriminate].
    intros [= <-]. simpl. split; [|reflexivity].
    apply two_keys_left; assumption.
  - intros [-> <-]. rewrite lookup_insert_eq.
    rewrite lookup_delete_ne by discriminate.
    rewrite lookup_insert_ne by discriminate. rewrite lookup_singleton_eq.
    destruct (decide _) as [_|Hne].
    + destruct e; reflexivity.
    + contradiction Hne. apply map_eq. intros k. rewrite lookup_empty.
      destruct (decide (k = "text")) as [->|Hk2]; [apply lookup_delete_eq|].
      rewrite lookup_delete_ne by congruence.
      destruct (decide (k = "status_code")) as [->|Hk1]; [apply lookup_delete_eq|].
      rewrite lookup_delete_ne by congruence.
      rewrite lookup_insert_ne by congruence. apply lookup_singleton_ne. congruence.
Qed.

(** How the initializer fails: without [status_code] with the
    [KeyError] of that key, whether [text] is there or not; with
    [status_code] and without [text] with the [KeyError] of [text]; with
    both and any further keyword with a [TypeError]. *)
Theorem init_failures (args : list PyVal) (kwargs : gmap string PyVal) :
  (kwargs !! "status_code" = None ->
   __init__ args kwargs = Exn (KeyError "status_code")) /\
  (is_Some (kwargs !! "status_code") -> kwargs !! "text" = None ->
   __init__ args kwargs = Exn (KeyError "text")) /\
  (forall k, is_Some (kwargs !! "status_code") -> is_Some (kwargs !! "text") ->
     k <> "status_code" -> k <> "text" -> is_Some (kwargs !! k) ->
     __init__ args kwargs = Exn no_keyword_arguments).
Proof.
  unfold __init__, pop. split; [|split].
  - intros ->. reflexivity.
  - intros [sc ->] Htx. rewrite lookup_delete_ne by discriminate.
    rewrite Htx. reflexivity.
  - intros k [sc ->] [tx Htx] Hk1 Hk2 [v Hv].
    rewrite lookup_delete_ne by discriminate. rewrite Htx.
    destruct (decide _) as [Hempty|]; [|reflexivity].
    assert (H : delete "text" (delete "status_code" kwargs) !! k = None)
      by (rewrite Hempty; apply lookup_empty).
    rewrite !lookup_delete_ne in H by congruence. congruence.
Qed.

Lemma init_accepts_exactly_status_code_and_text_witness :
  __init__ [VStr "Non-successful status code"]
    {["status_code" := VInt 404; "text" := VStr "not found"]}
    = Ok {| args := [VStr "Non-successful status code"];
            status_code := VInt 404; text := VStr "not found" |}.
Proof.
  apply (init_accepts_exactly_status_code_and_text
           [VStr "Non-successful status code"]
           {["status_code" := VInt 404; "text" := VStr "not found"]}
           {| args := [VStr "Non-successful status code"];
              status_code := VInt 404; text := VStr "not found" |}).
  split; reflexivity.
Defined.

Lemma init_failures_witness :
  __init__ [] {["text" := VNone]} = Exn (KeyError "status_code") /\
  __init__ [] {["status_code" := VInt 500]} = Exn (KeyError "text") /\
  __init__ [] {["status_code" := VInt 500; "text" := VNone; "headers" := VNone]}
    = Exn no_keyword_arguments.
Proof.
  split; [|split].
  - apply (init_failures [] {["text" := VNone]}). reflexivity.
  - apply (init_failures [] {["status_code" := VInt 500]}); [eauto | reflexivity].
  - apply (proj2 (proj2 (init_failures []
             {["status_code" := VInt 500; "text" := VNone; "headers" := VNone]}))
             "headers"); [eauto | eauto | discriminate | discriminate | eauto].
Defined.

End AdapterHTTPErrorClass.

(** ** Where the outcomes of the adapters come from *)

Module URLLibOutcomes.

Import URLLibAdapter.

Definition is_https_handler (h : Handler) : bool :=
  match h with
  | HTTPSHandler _ => true
  | _ => false
  end.

Section Facts.

Variable Seconds : Type.
Variable opener_open : list Handler -> Request -> Seconds -> PyResult Page.
Variable str_decode : list byte -> string -> PyResult string.
Variable json_loads : string -> PyResult Json.

Abbreviation urlopen := (urlopen Seconds opener_open).
Abbreviation get_text := (get_text Seconds opener_open str_decode).
Abbreviation get_json := (get_json Seconds opener_open str_decode json_loads).

(** The charset [_decode_page] decodes with. *)
Definition decodes_with (page : Page) (charset : string) : Prop :=
  page_charset page = Some charset /\ charset <> EmptyString \/
  (page_charset page = None \/ page_charset page = Some EmptyString) /\
  charset = "utf-8".

Lemma decode_page_inv (page : Page) (o : Outcome string) :
  _decode_page str_decode page = o ->
  (page_read page = None /\
   o = Raises (GeocoderServiceError "Unable to read the response")) \/
  (exists body charset,
     page_read page = Some body /\ decodes_with page charset /\
     match str_decode body charset with
     | Ok s => o = Returns s
     | Exn e =>
         if isinstance e ValueError
         then o = Raises (GeocoderParseError "Unable to decode the response bytes")
         else o = Propagates e
     end).
Proof.
  unfold _decode_page. intros <-.
  destruct (page_read page) as [body|]; [right|left; split; reflexivity].
  exists body.
  destruct (page_charset page) as [[|c0 c]|] eqn:Hc.
  - exists "utf-8". split; [reflexivity|]. split; [right; auto|].
    simpl. destruct (str_decode body "utf-8") as [s|e]; [reflexivity|].
    destruct (isinstance e ValueError); reflexivity.
  - exists (String c0 c). split; [reflexivity|]. split; [left; split; [exact Hc|discriminate]|].
    simpl. destruct (str_decode body (String c0 c)) as [s|e]; [reflexivity|].
    destruct (isinstance e ValueError); reflexivity.
  - exists "utf-8". split; [reflexivity|]. split; [right; auto|].
    destruct (str_decode body "utf-8") as [s|e]; [reflexivity|].
    destruct (isinstance e ValueError); reflexivity.
Qed.

(** A text that [get_text] returns is the decoded body of a response that
    [urlopen] returned with a status below 400; a value that [get_json]
    returns is the parse of such a text. *)
Theorem returned_text_is_decoded_body (self : t) url timeout headers :
  (forall s, get_text self url timeout headers = Returns s ->
     exists page body charset,
       urlopen self {| req_url := url; req_headers := headers |} timeout = Ok page /\
       page_code page < 400 /\
       page_read page = Some body /\
       decodes_with page charset /\
       str_decode body charset = Ok s) /\
  (forall v, get_json self url timeout headers = Returns v ->
     exists text,
       get_text self url timeout headers = Returns text /\
       json_loads text = Ok v).
Proof.
  split.
  - intros s. rewrite URLLibAdapterFacts.get_text_request.
    destruct (urlopen self _ timeout) as [page|[a st fp|mro a st]];
      [|discriminate..].
    destruct (decode_page_inv page _ eq_refl) as [[_ ->]|(body & charset & Hread & Hcs & Hdec)];
      [discriminate|].
    destruct (str_decode body charset) as [s'|e] eqn:Hs.
    + rewrite Hdec. simpl. destruct (400 <=? page_code page) eqn:Hcode; [discriminate|].
      intros [= <-]. exists page, body, charset. apply Z.leb_gt in Hcode. auto.
    + destruct (isinstance e ValueError); rewrite Hdec; discriminate.
  - intros v. unfold URLLibAdapter.get_json.
    destruct (URLLibAdapter.get_text _ _ _ self url timeout headers) as [text|g|e];
      simpl; [|discriminate..].
    destruct (json_loads text) as [v'|e] eqn:Hloads.
    + intros [= <-]. exists text. auto.
    + destruct (isinstance e ValueError); discriminate.
Qed.

(** Where the errors of [get_text] come from, whatever [urlopen] does.
    [AdapterHTTPError] comes from an [HTTPError] of [urlopen], with its
    code and message, or from a returned response whose status is 400 or
    more; its text is then the body of that response, read and decoded
    with the charset of the header or UTF-8.  [GeocoderParseError] is
    raised only for a returned
    response whose body was read and rejected by the decoder with a
    [ValueError]; a timeout or an unavailable service is reported only
    when [urlopen] raised. *)
Theorem error_origins (self : t) url timeout headers :
  (forall m code body,
     get_text self url timeout headers = Raises (AdapterHTTPError m code body) ->
     (exists a st fp,
        urlopen self {| req_url := url; req_headers := headers |} timeout
          = Exn (HTTPError a st fp) /\
        code = page_code fp /\ m = error_message (HTTPError a st fp)) \/
     (exists page bytes charset text,
        urlopen self {| req_url := url; req_headers := headers |} timeout = Ok page /\
        code = page_code page /\ 400 <= code /\
        page_read page = Some bytes /\ decodes_with page charset /\
        str_decode bytes charset = Ok text /\ body = Some text /\
        m = "Non-successful status code")) /\
  (forall m,
     get_text self url timeout headers = Raises (GeocoderParseError m) ->
     exists page body charset e,
       urlopen self {| req_url := url; req_headers := headers |} timeout = Ok page /\
       page_read page = Some body /\ decodes_with page charset /\
       str_decode body charset = Exn e /\ isinstance e ValueError = true) /\
  (forall g,
     get_text self url timeout headers = Raises g ->
     match g with
     | GeocoderTimedOut _ | GeocoderUnavailable _ =>
         exists error,
           urlopen self {| req_url := url; req_headers := headers |} timeout
             = Exn error
     | _ => True
     end).
Proof.
  rewrite URLLibAdapterFacts.get_text_request.
  destruct (urlopen self _ timeout) as [page|[a st fp|mro a st]].
  - destruct (decode_page_inv page _ eq_refl)
      as [[Hread ->]|(body & charset & Hread & Hcs & Hdec)].
    + split; [|split]; [intros m code body|intros m|intros g]; simpl; try discriminate.
      intros [= <-]. exact I.
    + destruct (str_decode body charset) as [s|e] eqn:Hs.
      * rewrite Hdec. simpl. destruct (400 <=? page_code page) eqn:Hcode.
        -- apply Z.leb_le in Hcode.
           split; [|split]; [intros m code b|intros m|intros g]; try discriminate.
           ++ intros [= <- <- <-]. right. exists page, body, charset, s.
              repeat split; auto.
           ++ intros [= <-]. exact I.
        -- split; [|split]; [intros m code b|intros m|intros g]; discriminate.
      * destruct (isinstance e ValueError) eqn:Hval; rewrite Hdec; simpl.
        -- split; [|split]; [intros m code b|intros m|intros g]; try discriminate.
           ++ intros _. exists page, body, charset, e. auto.
           ++ intros [= <-]. exact I.
        -- split; [|split]; [intros m code b|intros m|intros g]; discriminate.
  - split; [|split]; [intros m code b|intros m|intros g]; try discriminate.
    + intros [= <- <- <-]. left. exists a, st, fp. auto.
    + intros [= <-]. exact I.
  - split; [|split]; [intros m code b|intros m|intros g]; cbv zeta.
    + repeat match goal with |- context [if ?b then _ else _] => destruct b end;
        discriminate.
    + repeat match goal with |- context [if ?b then _ else _] => destruct b end;
        discriminate.
    + intros [= <-].
      repeat match goal with |- context [if ?b then _ else _] => destruct b end;
        eauto.
Qed.

End Facts.

(** The opener of the adapter, as [opener.handlers] lists it.  First
    comes the proxy handler of the mapping served, the given one or that
    of the environment when none is given, if [add_handler] registered a
    method of it; then the defaults of [build_opener], the HTTPS handler
    built with the given context, and the processor that turns error
    statuses into [HTTPError].  There is one HTTPS handler: no handler with
    the default trust is left beside it.  The handlers are nine, ten with
    the proxy handler; an empty mapping leaves nine. *)
Theorem opener_https_handler (env : Proxies) (proxies : option Proxies)
    (ctx : option SSLContext) :
  let handlers := opener (__init__ env proxies ctx) in
  let served := default env proxies in
  handlers =
    ((if added (ProxyHandler served) then [ProxyHandler served] else [])
     ++ [ OtherHandler "UnknownHandler"; OtherHandler "HTTPHandler";
          OtherHandler "HTTPDefaultErrorHandler"; OtherHandler "HTTPRedirectHandler";
          OtherHandler "FTPHandler"; OtherHandler "FileHandler";
          OtherHandler "DataHandler"; HTTPSHandler ctx;
          OtherHandler "HTTPErrorProcessor" ])%list /\
  List.filter is_https_handler handlers = [HTTPSHandler ctx] /\
  length handlers = (if added (ProxyHandler served) then 10 else 9)%nat /\
  (served = ∅ -> length handlers = 9%nat).
Proof.
  intros handlers served. subst handlers served.
  rewrite URLLibAdapterFacts.opener_handlers. unfold new_ProxyHandler.
  split; [|split; [|split]].
  - destruct (added (ProxyHandler (default env proxies))); reflexivity.
  - destruct (added (ProxyHandler (default env proxies))); reflexivity.
  - destruct (added (ProxyHandler (default env proxies))); reflexivity.
  - intros ->. reflexivity.
Qed.

Lemma opener_https_handler_witness :
  length (opener (__init__ ∅ (Some ∅) (Some 7%positive))) = 9%nat.
Proof.
  apply (opener_https_handler ∅ (Some ∅) (Some 7%positive)). reflexivity.
Defined.

Lemma returned_text_is_decoded_body_witness :
  exists page body charset,
    Sample.answers (Ok URLLibAdapterFacts.found_page) (opener URLLibAdapterFacts.adapter)
      {| req_url := "https://example.org/"; req_headers := [] |} tt = Ok page /\
    page_code page < 400 /\ page_read page = Some body /\
    decodes_with page charset /\ Sample.str_decode body charset = Ok "[1, 2]".
Proof.
  apply (proj1 (returned_text_is_decoded_body unit
                  (Sample.answers (Ok URLLibAdapterFacts.found_page))
                  Sample.str_decode Sample.json_loads URLLibAdapterFacts.adapter
                  "https://example.org/" tt [])).
  reflexivity.
Defined.

Lemma error_origins_witness :
  exists page body charset e,
    Sample.served (Ok (URLLibAdapterFacts.undecodable_page 200))
      (opener URLLibAdapterFacts.adapter)
      {| req_url := "https://example.org/"; req_headers := [] |} tt = Ok page /\
    page_read page = Some body /\ decodes_with page charset /\
    Sample.str_decode body charset = Exn e /\ isinstance e ValueError = true.
Proof.
  apply (proj1 (proj2 (error_origins unit
                  (Sample.served (Ok (URLLibAdapterFacts.undecodable_page 200)))
                  Sample.str_decode URLLibAdapterFacts.adapter
                  "https://example.org/" tt []))
           "Unable to decode the response bytes").
  reflexivity.
Defined.

End URLLibOutcomes.

(** ** URLLibAdapter behind the opener of the library *)

Module URLLibOpener.

Import URLLibAdapter.

Section Facts.

Variable Seconds : Type.
Variable exchange : list Handler -> Request -> Seconds -> PyResult Page.
Variable http_error_args : Page -> list string.
Variable http_error_str : Page -> string.
Variable str_decode : list byte -> string -> PyResult string.

Abbreviation director :=
  (OpenerDirector_open Seconds exchange http_error_args http_error_str).
Abbreviation raised := (http_error_default http_error_args http_error_str).
Abbreviation urlopen := (urlopen Seconds director).
Abbreviation get_text := (get_text Seconds director str_decode).
Abbreviation get_text_log := (get_text_log Seconds director str_decode).
Abbreviation _decode_page := (_decode_page str_decode).

(** What [get_text] makes of an [HTTPError]. *)
Lemma http_error_outcome (self : t) url timeout headers a s fp :
  urlopen self {| req_url := url; req_headers := headers |} timeout
    = Exn (HTTPError a s fp) ->
  exists body,
    get_text self url timeout headers =
      Raises (AdapterHTTPError (error_message (HTTPError a s fp)) (page_code fp) body) /\
    (forall text, _decode_page fp = Returns text ->
       body = Some text /\ get_text_log self url timeout headers = []) /\
    ((forall text, _decode_page fp <> Returns text) ->
       body = None /\
       get_text_log self url timeout headers =
         [LogDebug "Unable to fetch body for a non-successful HTTP response" true]).
Proof.
  intros H. rewrite URLLibAdapterFacts.get_text_request.
  unfold URLLibAdapter.get_text_log. cbv zeta. rewrite H.
  eexists. split; [reflexivity|].
  unfold _read_http_error_body, _read_http_error_body_log.
  destruct (_decode_page fp) as [text|e|e]; split.
  - intros text' [= <-]. split; reflexivity.
  - intros Hno. contradiction (Hno text). reflexivity.
  - intros text' [=].
  - intros _. split; reflexivity.
  - intros text' [=].
  - intros _. split; reflexivity.
Qed.

(** C2. Behind the opener of the library a response with a status of
    400 or more always reaches [get_text] as an [HTTPError], raised by
    the error processor of the opener for the response received, or by a
    handler on the way.  The call then fails with [AdapterHTTPError] and
    that status; the text is the decoded body when [_decode_page] returns
    it, and when reading or decoding fails the text is absent, one debug
    record is written, and the failure replaces nothing.  No response with
    such a status is returned by [urlopen], so the branch of [get_text]
    that decodes a returned response never meets one. *)
Theorem error_status_never_masked (env : Proxies) (proxies : option Proxies)
    (ctx : option SSLContext) url timeout headers :
  let self := __init__ env proxies ctx in
  let req := {| req_url := url; req_headers := headers |} in
  (forall error fp,
     exchange (opener self) req timeout = Ok fp /\ 400 <= page_code fp /\
       error = raised fp \/
     exchange (opener self) req timeout = Exn error /\
       (exists a s, error = HTTPError a s fp) ->
     exists body,
       get_text self url timeout headers =
         Raises (AdapterHTTPError (error_message error) (page_code fp) body) /\
       (forall text, _decode_page fp = Returns text ->
          body = Some text /\ get_text_log self url timeout headers = []) /\
       ((forall text, _decode_page fp <> Returns text) ->
          body = None /\
          get_text_log self url timeout headers =
            [LogDebug "Unable to fetch body for a non-successful HTTP response"
               true])) /\
  (forall page, urlopen self req timeout = Ok page ->
     200 <= page_code page < 300).
Proof.
  intros self req. subst self req. split.
  - intros error fp H.
    assert (Hopen : urlopen (__init__ env proxies ctx)
                      {| req_url := url; req_headers := headers |} timeout
                    = Exn error /\ exists a s, error = HTTPError a s fp).
    { rewrite URLLibAdapterFacts.urlopen_exchange.
      destruct H as [(-> & Hcode & ->)|[-> Herror]].
      - replace ((200 <=? page_code fp) && (page_code fp <? 300)) with false
          by (symmetry; apply andb_false_iff; right; apply Z.ltb_ge; lia).
        split; [reflexivity|]. eexists _, _. reflexivity.
      - split; [reflexivity|exact Herror]. }
    destruct Hopen as [Hopen (a & s & ->)].
    apply http_error_outcome. exact Hopen.
  - intros page. rewrite URLLibAdapterFacts.urlopen_exchange.
    destruct (exchange _ _ timeout) as [response|e]; [|discriminate].
    destruct ((200 <=? page_code response) && (page_code response <? 300)) eqn:Hcode;
      [|discriminate].
    intros [= <-]. apply andb_true_iff in Hcode as [H1 H2].
    apply Z.leb_le in H1. apply Z.ltb_lt in H2. lia.
Qed.


End Facts.

Lemma error_status_never_masked_witness :
  exists body,
    URLLibAdapter.get_text unit
      (Sample.served (Ok (URLLibAdapterFacts.undecodable_page 404)))
      Sample.str_decode URLLibAdapterFacts.adapter "https://example.org/" tt []
      = Raises (AdapterHTTPError "HTTP Error 404: Not Found" 404 body) /\
    body = None /\
    URLLibAdapter.get_text_log unit
      (Sample.served (Ok (URLLibAdapterFacts.undecodable_page 404)))
      Sample.str_decode URLLibAdapterFacts.adapter "https://example.org/" tt []
      = [LogDebug "Unable to fetch body for a non-successful HTTP response" true].
Proof.
  destruct (proj1 (error_status_never_masked unit
                     (Sample.answers (Ok (URLLibAdapterFacts.undecodable_page 404)))
                     Sample.http_error_args Sample.http_error_str Sample.str_decode
                     ∅ (Some ∅) None "https://example.org/" tt [])
              (Sample.http_error_default_of (URLLibAdapterFacts.undecodable_page 404))
              (URLLibAdapterFacts.undecodable_page 404))
    as (body & Hraised & _ & Habsent).
  - left. split; [reflexivity|]. split; [vm_compute; discriminate|reflexivity].
  - exists body. split; [exact Hraised|]. apply Habsent.
    intros text. vm_compute. discriminate.
Defined.




End URLLibOpener.

Module RequestsOutcomes.

Import RequestsAdapter.

Section Facts.

Variable Seconds : Type.
Variable session_get :
  Session -> string -> Seconds -> Headers -> list string * PyResult Response.

Abbreviation _request := (_request Seconds session_get).
Abbreviation get_text := (get_text Seconds session_get).
Abbreviation get_json := (get_json Seconds session_get).

(** A text that [get_text] returns is the text of a response with a
    status below 400, and a value that [get_json] returns is what the
    [json()] of such a response gave. *)
Theorem returned_text_is_response_text (self : t) url timeout headers :
  (forall s, snd (get_text self url timeout headers) = Returns s ->
     exists pool' resp,
       session_get (session self) url timeout headers = (pool', Ok resp) /\
       status_code resp < 400 /\ s = text resp) /\
  (forall v, snd (get_json self url timeout headers) = Returns v ->
     exists pool' resp,
       session_get (session self) url timeout headers = (pool', Ok resp) /\
       status_code resp < 400 /\ json resp = Ok v).
Proof.
  rewrite RequestsAdapterFacts.get_text_of_request,
    RequestsAdapterFacts.get_json_of_request.
  destruct (session_get (session self) url timeout headers) as [pool' [resp|error]] eqn:H.
  - rewrite (RequestsAdapterFacts.request_answered _ _ _ _ _ _ _ _ H). simpl.
    destruct (400 <=? status_code resp) eqn:Hcode; simpl.
    + split; intros x; discriminate.
    + apply Z.leb_gt in Hcode. split.
      * intros s [= <-]. exists pool', resp. auto.
      * intros v Hv. exists pool', resp. split; [reflexivity|]. split; [exact Hcode|].
        destruct (json resp) as [v'|e]; [congruence|].
        destruct (isinstance e ValueError); discriminate.
  - rewrite (RequestsAdapterFacts.request_raised _ _ _ _ _ _ _ _ H). simpl.
    split; intros x; discriminate.
Qed.

End Facts.

(** The constructor.  Without [requests] it raises [ImportError] and
    emits nothing.  With [requests] it returns an adapter whose session
    holds no connection, has the adapter with the given context mounted
    for [https://] and the plain adapter of [requests] left for
    [http://]; it emits the old-urllib3 warning exactly when a context is
    given and the version is below (1, 24, 2), and the mounted adapter has
    then warned already. *)
Theorem constructor_outcome (urllib3_version : string)
    (proxies : option Proxies) (ctx : option SSLContext) :
  (RequestsAdapter.__init__ false urllib3_version proxies ctx
     = (Propagates requests_missing, []) /\
   isinstance requests_missing ImportError = true) /\
  exists self a,
    RequestsAdapter.__init__ true urllib3_version proxies ctx =
      (Returns self,
       if match ctx with Some _ => true | None => false end
          && TLSContextBinding.old_urllib3 urllib3_version
       then [SSLAdapter.old_urllib3_warning] else []) /\
    pool (session self) = [] /\
    adapters (session self) !! "https://" = Some (WithSSLContext a) /\
    adapters (session self) !! "http://" = Some HTTPAdapter /\
    SSLAdapter.ssl_context a = ctx /\
    SSLAdapter.urllib3_warned a = match ctx with Some _ => true | None => false end.
Proof.
  split; [split; reflexivity|].
  unfold RequestsAdapter.__init__, SSLAdapter.__init__, SSLAdapter.init_poolmanager.
  simpl. destruct ctx as [ctx|]; simpl.
  - rewrite TLSContextBinding.warn_first by reflexivity. simpl.
    eexists _, _. split; [reflexivity|]. simpl.
    split; [destruct proxies; reflexivity|]. split; [apply lookup_insert_eq|].
    split; [|split; reflexivity].
    rewrite lookup_insert_ne by discriminate. destruct proxies; reflexivity.
  - eexists _, _. split; [reflexivity|]. simpl.
    split; [destruct proxies; reflexivity|]. split; [apply lookup_insert_eq|].
    split; [|split; reflexivity].
    rewrite lookup_insert_ne by discriminate. destruct proxies; reflexivity.
Qed.

Lemma returned_text_is_response_text_witness :
  exists pool' resp,
    RequestsAdapterFacts.keepalive_get (session RequestsAdapterFacts.adapter)
      "https://example.org/" tt [] = (pool', Ok resp) /\
    status_code resp < 400 /\ "null" = text resp.
Proof.
  apply (proj1 (returned_text_is_response_text unit RequestsAdapterFacts.keepalive_get
                  RequestsAdapterFacts.adapter "https://example.org/" tt [])).
  reflexivity.
Defined.

End RequestsOutcomes.

(** ** More on the TLS context binding *)

Module TLSContextState.

Import RequestsHTTPWithSSLContextAdapter.

Lemma split_nonempty (sep : ascii) (s : string) : Py.split sep s <> [].
Proof.
  destruct s as [|c s]; simpl; [discriminate|].
  destruct (Ascii.eqb c sep); [discriminate|].
  destruct (Py.split sep s); discriminate.
Qed.

Lemma tuple_lt_trans (xs ys zs : list Z) :
  Py.tuple_lt xs ys = true -> Py.tuple_lt ys zs = true -> Py.tuple_lt xs zs = true.
Proof.
  revert ys zs. induction xs as [|x xs IH]; intros [|y ys] [|z zs]; simpl;
    try discriminate; try reflexivity.
  destruct (Z.eqb_spec x y), (Z.eqb_spec y z), (Z.eqb_spec x z);
    intros H1 H2; rewrite ?Z.ltb_lt in *; subst; try lia; eauto.
Qed.

Lemma tuple_lt_minimum (xs : list Z) :
  Py.tuple_lt xs [1; 24; 2] = true <->
  match xs with
  | [] => True
  | [a] => a <= 1
  | [a; b] => a < 1 \/ a = 1 /\ b <= 24
  | a :: b :: c :: _ => a < 1 \/ a = 1 /\ (b < 24 \/ b = 24 /\ c < 2)
  end.
Proof.
  destruct xs as [|a [|b [|c rest]]]; simpl.
  - tauto.
  - destruct (Z.eqb_spec a 1); [split; [lia|reflexivity]|].
    rewrite Z.ltb_lt. lia.
  - destruct (Z.eqb_spec a 1); [|rewrite Z.ltb_lt; lia].
    destruct (Z.eqb_spec b 24); [split; [lia|reflexivity]|].
    rewrite Z.ltb_lt. lia.
  - destruct (Z.eqb_spec a 1); [|rewrite Z.ltb_lt; lia].
    destruct (Z.eqb_spec b 24); [|rewrite Z.ltb_lt; lia].
    destruct (Z.eqb_spec c 2).
    + destruct rest; split; try discriminate; lia.
    + rewrite Z.ltb_lt. lia.
Qed.

(** The version test by the number of components.  A version string has
    at least one component.  With three components or more only the
    first three count, and the instance warns when they are below
    1, 24, 2; a version of two components warns up to 1.24 included, and
    a version of one component up to 1 included: a shorter version that
    is a prefix of 1.24.2 counts as older. *)
Theorem warning_by_components (version : string) (ctx : option SSLContext) :
  TLSContextBinding.components version <> [] /\
  (snd (__warn_if_old_urllib3 version (fresh ctx)) = [old_urllib3_warning] <->
   match TLSContextBinding.components version with
   | [] => True
   | [a] => a <= 1
   | [a; b] => a < 1 \/ a = 1 /\ b <= 24
   | a :: b :: c :: _ => a < 1 \/ a = 1 /\ (b < 24 \/ b = 24 /\ c < 2)
   end).
Proof.
  split.
  - unfold TLSContextBinding.components. intros H.
    apply fmap_nil_inv in H. exact (split_nonempty _ _ H).
  - rewrite <- tuple_lt_minimum, <- TLSContextBinding.old_urllib3_components.
    rewrite TLSContextBinding.warn_first by reflexivity. simpl.
    destruct (TLSContextBinding.old_urllib3 version); split; done.
Qed.

(** The version test respects the order of versions: when a version
    triggers the warning, so does every version whose components compare
    below its components. *)
Theorem older_version_warns_too (older newer : string) (ctx : option SSLContext) :
  Py.tuple_lt (TLSContextBinding.components older)
              (TLSContextBinding.components newer) = true ->
  snd (__warn_if_old_urllib3 newer (fresh ctx)) = [old_urllib3_warning] ->
  snd (__warn_if_old_urllib3 older (fresh ctx)) = [old_urllib3_warning].
Proof.
  rewrite !TLSContextBinding.warn_first by reflexivity. simpl.
  rewrite !TLSContextBinding.old_urllib3_components. intros Hlt.
  destruct (Py.tuple_lt (TLSContextBinding.components newer) _) eqn:Hnewer;
    [|discriminate].
  rewrite (tuple_lt_trans _ _ _ Hlt Hnewer). reflexivity.
Qed.

Lemma older_version_warns_too_witness :
  snd (__warn_if_old_urllib3 "1.9" (fresh (Some 7%positive))) = [old_urllib3_warning].
Proof.
  apply (older_version_warns_too "1.9" "1.24.1" (Some 7%positive));
    reflexivity.
Defined.

Section Instance.

Variable urllib3_version : string.

Abbreviation step := (step urllib3_version).
Abbreviation run := (run urllib3_version).

Lemma step_state (self : t) (c : Call) :
  ssl_context (fst (step self c)) = ssl_context self /\
  (urllib3_warned self = true -> urllib3_warned (fst (step self c)) = true) /\
  (ssl_context self = None -> fst (step self c) = self) /\
  (is_Some (ssl_context self) -> binds c = true ->
   urllib3_warned (fst (step self c)) = true) /\
  (length (snd (step self c)) <= 1)%nat /\
  (urllib3_warned self = true -> snd (step self c) = []) /\
  (urllib3_warned (fst (step self c)) = false -> snd (step self c) = []).
Proof.
  assert (Hnone : is_Some (@None SSLContext) -> False) by (intros [? ?]; discriminate).
  destruct (urllib3_warned self) eqn:Hw.
  - rewrite TLSContextBinding.step_warned by exact Hw. simpl.
    repeat split; intros; try done; simpl; lia.
  - destruct (ssl_context self) as [ctx|] eqn:Hc.
    + destruct (binds c) eqn:Hb.
      * rewrite (TLSContextBinding.step_first_binding _ _ ctx) by assumption.
        simpl. repeat split; intros; try done.
        destruct (TLSContextBinding.old_urllib3 urllib3_version); simpl; lia.
      * rewrite TLSContextBinding.step_not_binding by exact Hb. simpl.
        repeat split; intros; try done; simpl; lia.
    + rewrite TLSContextBinding.step_no_context by exact Hc. simpl.
      repeat split; intros; try done; try tauto; simpl; lia.
Qed.

(** What a life of calls does to an instance, whatever its state at the
    start: the context never changes; the flag, once set, stays set;
    without a context the instance does not change at all, so the flag is
    never set and the version is never looked at; with a context the flag
    is set as soon as one call binds the context, whatever the version;
    and at most one warning is emitted, none when the flag was set
    already. *)
Theorem instance_state_over_calls (self : t) (calls : list Call) :
  ssl_context (fst (run self calls)) = ssl_context self /\
  (urllib3_warned self = true -> urllib3_warned (fst (run self calls)) = true) /\
  (ssl_context self = None -> fst (run self calls) = self) /\
  (is_Some (ssl_context self) -> existsb binds calls = true ->
   urllib3_warned (fst (run self calls)) = true) /\
  (length (snd (run self calls)) <= 1)%nat /\
  (urllib3_warned self = true -> snd (run self calls) = []).
Proof.
  revert self. induction calls as [|c calls IH]; intros self.
  - simpl. repeat split; auto. discriminate.
  - rewrite TLSContextBinding.run_cons. simpl fst. simpl snd.
    destruct (step_state self c) as (Hc & Hw & Hn & Hb & Hl & He & Hf).
    destruct (IH (fst (step self c))) as (Hc' & Hw' & Hn' & Hb' & Hl' & He').
    split; [congruence|]. split; [auto|].
    split; [intros H; rewrite Hn' by congruence; auto|].
    split.
    + simpl existsb. intros Hsome [Hbc|Hbcalls]%orb_true_iff.
      * auto.
      * apply Hb'; [congruence | exact Hbcalls].
    + split.
      * rewrite length_app.
        destruct (urllib3_warned (fst (step self c))) eqn:Hflag.
        -- rewrite (He' eq_refl). simpl. lia.
        -- rewrite (Hf eq_refl). simpl. exact Hl'.
      * intros Hself. rewrite He, He' by auto. reflexivity.
Qed.

(** The keyword arguments that reach the base class.  With a context,
    [init_poolmanager] and [proxy_manager_for] hand over the same
    arguments: [ssl_context] is the context of the adapter, also when the
    caller passed an [ssl_context] of its own, and every other argument
    has the value the caller gave it; no other key is added or removed,
    and decorating twice is decorating once. *)
Theorem keyword_arguments_decorated (self : t) (ctx : SSLContext)
    (proxy : string) (kwargs : Kwargs) :
  ssl_context self = Some ctx ->
  let decorated := (init_poolmanager urllib3_version self kwargs).1.1 in
  (proxy_manager_for urllib3_version self proxy kwargs).1.1 = decorated /\
  decorated !! "ssl_context" = Some (KwContext ctx) /\
  (forall key, key <> "ssl_context" -> decorated !! key = kwargs !! key) /\
  dom decorated = {["ssl_context"]} ∪ dom kwargs /\
  (forall other, kwargs !! "ssl_context" = Some other ->
     size decorated = size kwargs) /\
  (init_poolmanager urllib3_version self decorated).1.1 = decorated.
Proof.
  intros Hctx decorated. subst decorated.
  unfold init_poolmanager, proxy_manager_for. rewrite Hctx.
  destruct (__warn_if_old_urllib3 urllib3_version self) as [self' ws]. simpl.
  split; [reflexivity|]. split; [apply lookup_insert_eq|].
  split; [intros key Hkey; apply lookup_insert_ne; congruence|].
  split; [apply dom_insert_L|]. split.
  - intros other Hother. apply map_size_insert_Some. eauto.
  - apply insert_insert_eq.
Qed.

End Instance.

(** The arguments of a caller that passes a context of its own. *)
Definition caller_kwargs : Kwargs :=
  {["ssl_context" := KwContext 9%positive; "block" := KwValue "False"]}.

Lemma keyword_arguments_decorated_witness :
  (proxy_manager_for "1.26.18" (fresh (Some 7%positive)) "http://proxy:3128"
     caller_kwargs).1.1
    = (init_poolmanager "1.26.18" (fresh (Some 7%positive)) caller_kwargs).1.1 /\
  (init_poolmanager "1.26.18" (fresh (Some 7%positive)) caller_kwargs).1.1
    !! "ssl_context" = Some (KwContext 7%positive) /\
  (init_poolmanager "1.26.18" (fresh (Some 7%positive)) caller_kwargs).1.1
    !! "block" = Some (KwValue "False").
Proof.
  destruct (keyword_arguments_decorated "1.26.18" (fresh (Some 7%positive))
              7%positive "http://proxy:3128" caller_kwargs eq_refl)
    as (Hsame & Hcontext & Hothers & _).
  split; [exact Hsame|]. split; [exact Hcontext|].
  rewrite Hothers by discriminate. reflexivity.
Defined.

End TLSContextState.

(** ** The test harness: request statistics and the retrying proxy *)

Module Conftest.

Section Harness.

(** Durations, Python floats. *)
Variable Seconds : Type.
(** [urlparse(url).netloc]. *)
Variable netloc_from_url : string -> string.
(** The settings read from the environment when the module is loaded. *)
Variable max_retries : Z.
Variable error_wait_seconds : Seconds.
Variable no_retries_for_hosts : gset string.

Definition retry_status_codes : list Z := [429].

(** The statistics of one host, [dict(count=0, retries=0, times=[])]. *)
Record HostStats := { count : Z; retries : Z; times : list Seconds }.

Definition new_stats : HostStats := {| count := 0; retries := 0; times := [] |}.

(** [RequestsMonitor]: [host_stats], a [defaultdict]. *)
Abbreviation RequestsMonitor := (gmap string HostStats).

(** [host_stats[hostname]]: a missing key reads as the default entry. *)
Definition stats_of (monitor : RequestsMonitor) (hostname : string) : HostStats :=
  default new_stats (monitor !! hostname).

Definition record_request (url : string) (monitor : RequestsMonitor) : RequestsMonitor :=
  let hostname := netloc_from_url url in
  let s := stats_of monitor hostname in
  <[hostname := {| count := count s + 1; retries := retries s; times := times s |}]>
    monitor.

Definition record_retry (url : string) (monitor : RequestsMonitor) : RequestsMonitor :=
  let hostname := netloc_from_url url in
  let s := stats_of monitor hostname in
  <[hostname := {| count := count s; retries := retries s + 1; times := times s |}]>
    monitor.

Definition record_response (url : string) (seconds_elapsed : Seconds)
    (monitor : RequestsMonitor) : RequestsMonitor :=
  let hostname := netloc_from_url url in
  let s := stats_of monitor hostname in
  <[hostname := {| count := count s; retries := retries s;
                   times := (times s ++ [seconds_elapsed])%list |}]>
    monitor.

(** What a call of [_wrapped_get] leaves behind: the monitor, the sleeps
    made, the number of times [do_request] was invoked, and the result. *)
Record Run (A : Type) := {
  monitor_after : RequestsMonitor;
  slept : list Seconds;
  invoked : nat;
  outcome : Outcome A
}.
Arguments monitor_after {A} r.
Arguments slept {A} r.
Arguments invoked {A} r.
Arguments outcome {A} r.

Definition should_not_be_reached : PyExc :=
  Exc [OtherClass "RuntimeError"] ["Should not have been reached"]
      "Should not have been reached".

(** [bool(self.proxies)]: [None] and the empty dict are false. *)
Definition is_proxied (proxies : option Proxies) : bool :=
  match proxies with
  | Some m => negb (bool_decide (m = ∅))
  | None => false
  end.

Section WrappedGet.

Variable A : Type.
(** [do_request()] at its [i]-th invocation, and the time it took. *)
Variable do_request : nat -> Outcome A.
Variable elapsed : nat -> Seconds.

(** The loop [for i in range(retries + 1)], from the iteration [i] with
    [left] iterations to go. *)
Fixpoint attempts (url : string) (retries : Z) (left : nat) (i : nat)
    (monitor : RequestsMonitor) : Run A :=
  match left with
  | O => {| monitor_after := monitor; slept := []; invoked := 0;
            outcome := Propagates should_not_be_reached |}
  | S left' =>
      let r := do_request i in
      let monitor := record_response url (elapsed i) monitor in
      let stop :=
        {| monitor_after := monitor; slept := []; invoked := 1; outcome := r |} in
      let again :=
        let monitor := record_retry url monitor in
        let rest := attempts url retries left' (S i) monitor in
        {| monitor_after := rest.(monitor_after);
           slept := error_wait_seconds :: rest.(slept);
           invoked := S rest.(invoked); outcome := rest.(outcome) |} in
      match r with
      | Returns _ => stop
      | Raises (AdapterHTTPError _ status_code _) =>
          if (Z.of_nat i =? retries)
             || negb (existsb (Z.eqb status_code) retry_status_codes)
          then stop else again
      | Raises _ | Propagates _ =>
          if Z.of_nat i =? retries then stop else again
      end
  end.

(** The number of retries [_wrapped_get] allows for a request. *)
Definition retries_for (proxies : option Proxies) (url : string) : Z :=
  let retries := max_retries in
  let netloc := netloc_from_url url in
  if is_proxied proxies || bool_decide (netloc ∈ no_retries_for_hosts)
  then 0 else retries.

(** [AdapterProxy._wrapped_get], [proxies] being [self.proxies]. *)
Definition _wrapped_get (proxies : option Proxies) (url : string)
    (monitor : RequestsMonitor) : Run A :=
  let monitor := record_request url monitor in
  let retries := retries_for proxies url in
  attempts url retries (Z.to_nat (retries + 1)) 0 monitor.

End WrappedGet.

(** [BaseAdapter], as the proxy uses it: the two methods, each answering
    by the number of requests the adapter has served before. *)
Record Adapter := {
  adapter_get_json : nat -> string -> Seconds -> Headers -> Outcome Json;
  adapter_get_text : nat -> string -> Seconds -> Headers -> Outcome string
}.

(** [AdapterProxy]: [self.proxies] and [self.adapter]. *)
Record AdapterProxy := { proxies : option Proxies; adapter : Adapter }.

(** [AdapterProxy.__init__]. *)
Definition __init__ (proxies : option Proxies) (ssl_context : option SSLContext)
    (adapter_factory : option Proxies -> option SSLContext -> Adapter) : AdapterProxy :=
  {| proxies := proxies; adapter := adapter_factory proxies ssl_context |}.

Definition get_json (self : AdapterProxy) (elapsed : nat -> Seconds) (url : string)
    (timeout : Seconds) (headers : Headers) (monitor : RequestsMonitor) : Run Json :=
  _wrapped_get Json
    (fun i => adapter_get_json (adapter self) i url timeout headers) elapsed
    (proxies self) url monitor.

Definition get_text (self : AdapterProxy) (elapsed : nat -> Seconds) (url : string)
    (timeout : Seconds) (headers : Headers) (monitor : RequestsMonitor) : Run string :=
  _wrapped_get string
    (fun i => adapter_get_text (adapter self) i url timeout headers) elapsed
    (proxies self) url monitor.

End Harness.

Arguments monitor_after {Seconds A} r.
Arguments slept {Seconds A} r.
Arguments invoked {Seconds A} r.
Arguments outcome {Seconds A} r.
Arguments count {Seconds} h.
Arguments retries {Seconds} h.
Arguments times {Seconds} h.

End Conftest.

Module ConftestFacts.

Import Conftest.

Section Facts.

Variable Seconds : Type.
Variable netloc_from_url : string -> string.
Variable max_retries : Z.
Variable error_wait_seconds : Seconds.
Variable no_retries_for_hosts : gset string.

Abbreviation Monitor := (gmap string (HostStats Seconds)).
Abbreviation stats_of := (stats_of Seconds).
Abbreviation record_request := (record_request Seconds netloc_from_url).
Abbreviation record_retry := (record_retry Seconds netloc_from_url).
Abbreviation record_response := (record_response Seconds netloc_from_url).
Abbreviation retries_for :=
  (retries_for netloc_from_url max_retries no_retries_for_hosts).

Variable A : Type.
Variable do_request : nat -> Outcome A.
Variable elapsed : nat -> Seconds.

Abbreviation attempts :=
  (attempts Seconds netloc_from_url error_wait_seconds A do_request elapsed).
Abbreviation _wrapped_get :=
  (_wrapped_get Seconds netloc_from_url max_retries error_wait_seconds
     no_retries_for_hosts A do_request elapsed).

(** Whether the attempt [i] is the last one, by its result: a returned
    value, the attempt number [retries], or an HTTP error whose status is
    not 429. *)
Definition stops (retries : Z) (i : nat) (r : Outcome A) : bool :=
  match r with
  | Returns _ => true
  | Raises (AdapterHTTPError _ status_code _) =>
      (Z.of_nat i =? retries) || negb (status_code =? 429)
  | _ => Z.of_nat i =? retries
  end.

(** The monitor after [k] failed attempts, from the attempt [i] on: each
    records its duration and a retry. *)
Fixpoint failures (url : string) (i k : nat) (monitor : Monitor) : Monitor :=
  match k with
  | O => monitor
  | S k' =>
      failures url (S i) k'
        (record_retry url (record_response url (elapsed i) monitor))
  end.

Lemma attempts_step (url : string) (retries : Z) (left i : nat) (monitor : Monitor) :
  attempts url retries (S left) i monitor =
    if stops retries i (do_request i)
    then {| monitor_after := record_response url (elapsed i) monitor;
            slept := []; invoked := 1; outcome := do_request i |}
    else
      let rest :=
        attempts url retries left (S i)
          (record_retry url (record_response url (elapsed i) monitor)) in
      {| monitor_after := monitor_after rest;
         slept := error_wait_seconds :: slept rest;
         invoked := S (invoked rest); outcome := outcome rest |}.
Proof.
  simpl. unfold stops. destruct (do_request i) as [a|[| | | |m code body]|e];
    try reflexivity.
  simpl. rewrite orb_false_r. reflexivity.
Qed.

Lemma stops_last (retries : Z) (i : nat) (r : Outcome A) :
  Z.of_nat i = retries -> stops retries i r = true.
Proof.
  intros <-. unfold stops. rewrite Z.eqb_refl.
  destruct r as [a|[| | | |m code body]|e]; reflexivity.
Qed.

Lemma attempts_first_stop (url : string) (retries : Z) (left : nat) :
  forall (i : nat) (monitor : Monitor),
    Z.of_nat i + Z.of_nat left = retries + 1 -> (0 < left)%nat ->
    exists k : nat,
      (k < left)%nat /\
      stops retries (i + k) (do_request (i + k)) = true /\
      (forall j, (j < k)%nat -> stops retries (i + j) (do_request (i + j)) = false) /\
      attempts url retries left i monitor =
        {| monitor_after :=
             record_response url (elapsed (i + k)) (failures url i k monitor);
           slept := repeat error_wait_seconds k;
           invoked := S k;
           outcome := do_request (i + k) |}.
Proof.
  induction left as [|left IH]; intros i monitor Hsum Hleft; [lia|].
  rewrite attempts_step.
  destruct (stops retries i (do_request i)) eqn:Hstop.
  - exists 0%nat. rewrite Nat.add_0_r. simpl.
    split; [lia|]. split; [exact Hstop|]. split; [intros j Hj; lia|reflexivity].
  - assert (Hnot : Z.of_nat i <> retries)
      by (intros Heq; rewrite (stops_last _ _ _ Heq) in Hstop; discriminate).
    destruct (IH (S i) (record_retry url (record_response url (elapsed i) monitor)))
      as (k & Hk & Hstopk & Hbefore & Hrun); [lia | lia |].
    exists (S k). rewrite Nat.add_succ_r. simpl in Hstopk, Hrun.
    split; [lia|]. split; [exact Hstopk|]. split.
    + intros [|j] Hj.
      * rewrite Nat.add_0_r. exact Hstop.
      * rewrite Nat.add_succ_r. apply (Hbefore j). lia.
    + cbv zeta. rewrite Hrun. reflexivity.
Qed.

Lemma stats_of_insert (monitor : Monitor) (h : string) (s : HostStats Seconds) :
  stats_of (<[h := s]> monitor) h = s.
Proof. unfold Conftest.stats_of. rewrite lookup_insert_eq. reflexivity. Qed.

Lemma failures_stats (url : string) (k : nat) :
  forall (i : nat) (monitor : Monitor),
    stats_of (failures url i k monitor) (netloc_from_url url) =
      {| count := count (stats_of monitor (netloc_from_url url));
         retries := retries (stats_of monitor (netloc_from_url url)) + Z.of_nat k;
         times := (times (stats_of monitor (netloc_from_url url))
                   ++ map elapsed (seq i k))%list |} /\
    (forall h, h <> netloc_from_url url ->
       failures url i k monitor !! h = monitor !! h).
Proof.
  induction k as [|k IH]; intros i monitor.
  - simpl. rewrite Z.add_0_r, app_nil_r.
    split; [destruct (stats_of monitor _); reflexivity | reflexivity].
  - simpl failures. destruct (IH (S i)
      (record_retry url (record_response url (elapsed i) monitor))) as [Hs Ho].
    split.
    + rewrite Hs. unfold Conftest.record_retry, Conftest.record_response.
      rewrite !stats_of_insert. simpl. f_equal; [lia|].
      rewrite <- app_assoc. reflexivity.
    + intros h Hh. rewrite Ho by exact Hh.
      unfold Conftest.record_retry, Conftest.record_response.
      rewrite !lookup_insert_ne by congruence. reflexivity.
Qed.

(** With a number of retries that is not negative, [_wrapped_get] stops
    at the first attempt that returns, or fails with an HTTP status other
    than 429, or is the attempt number [retries]; its result is the result
    of that attempt, and it has slept [error_wait_seconds] once after
    each earlier attempt. *)
Theorem wrapped_get_stops_at_first_final_attempt
    (proxies : option Proxies) (url : string) (monitor : Monitor) :
  0 <= retries_for proxies url ->
  exists k : nat,
    Z.of_nat k <= retries_for proxies url /\
    stops (retries_for proxies url) k (do_request k) = true /\
    (forall j, (j < k)%nat -> stops (retries_for proxies url) j (do_request j) = false) /\
    invoked (_wrapped_get proxies url monitor) = S k /\
    outcome (_wrapped_get proxies url monitor) = do_request k /\
    slept (_wrapped_get proxies url monitor) = repeat error_wait_seconds k.
Proof.
  intros Hretries. unfold Conftest._wrapped_get. cbv zeta.
  destruct (attempts_first_stop url (retries_for proxies url)
              (Z.to_nat (retries_for proxies url + 1)) 0 (record_request url monitor))
    as (k & Hk & Hstop & Hbefore & Hrun); [lia | lia |].
  exists k. simpl in Hstop, Hbefore, Hrun. rewrite Hrun. simpl.
  split; [lia|]. auto.
Qed.

(** With a negative number of retries, [_wrapped_get] makes no request
    at all and fails with the [RuntimeError] the source calls
    unreachable; the request is counted all the same. *)
Theorem wrapped_get_without_attempt
    (proxies : option Proxies) (url : string) (monitor : Monitor) :
  retries_for proxies url < 0 ->
  _wrapped_get proxies url monitor =
    {| monitor_after := record_request url monitor; slept := []; invoked := 0;
       outcome := Propagates should_not_be_reached |}.
Proof.
  intros Hneg. unfold Conftest._wrapped_get. cbv zeta.
  replace (Z.to_nat (retries_for proxies url + 1)) with 0%nat by lia.
  reflexivity.
Qed.

(** Through a proxy, and for a host listed in [no_retries_for_hosts],
    there is one attempt whatever [max_retries] says: the result is the
    result of [do_request], nothing is retried and nothing sleeps. *)
Theorem wrapped_get_single_attempt
    (proxies : option Proxies) (url : string) (monitor : Monitor) :
  is_proxied proxies = true \/ netloc_from_url url ∈ no_retries_for_hosts ->
  _wrapped_get proxies url monitor =
    {| monitor_after := record_response url (elapsed 0) (record_request url monitor);
       slept := []; invoked := 1; outcome := do_request 0 |}.
Proof.
  intros H. unfold Conftest._wrapped_get. cbv zeta.
  assert (Hzero : retries_for proxies url = 0).
  { unfold Conftest.retries_for. cbv zeta. destruct H as [->|H]; [reflexivity|].
    rewrite (bool_decide_eq_true_2 _ H), orb_true_r. reflexivity. }
  rewrite Hzero. change (Z.to_nat (0 + 1)) with 1%nat.
  rewrite attempts_step, (stops_last 0 0 _ eq_refl). reflexivity.
Qed.

(** The bookkeeping of [_wrapped_get].  Whatever the settings and the
    results, the host of the request has one more request counted and the
    duration of each invocation of [do_request] appended in order, and no
    other host is touched.  With a number of retries that is not negative
    there are at least one and at most [retries + 1] invocations, one
    retry is recorded and one sleep made for each invocation but the last.
    With a negative number there is no invocation, no retry and no
    sleep. *)
Theorem wrapped_get_bookkeeping
    (proxies : option Proxies) (url : string) (monitor : Monitor) :
  let run := _wrapped_get proxies url monitor in
  let before := stats_of monitor (netloc_from_url url) in
  let after := stats_of (monitor_after run) (netloc_from_url url) in
  count after = count before + 1 /\
  times after = (times before ++ map elapsed (seq 0 (invoked run)))%list /\
  (forall h, h <> netloc_from_url url -> monitor_after run !! h = monitor !! h) /\
  (0 <= retries_for proxies url ->
   1 <= Z.of_nat (invoked run) <= retries_for proxies url + 1 /\
   retries after = retries before + (Z.of_nat (invoked run) - 1) /\
   slept run = repeat error_wait_seconds (Z.to_nat (Z.of_nat (invoked run) - 1))) /\
  (retries_for proxies url < 0 ->
   invoked run = 0%nat /\ retries after = retries before /\ slept run = []).
Proof.
  intros run before after. subst run before after.
  destruct (Z.lt_ge_cases (retries_for proxies url) 0) as [Hneg|Hpos].
  - unfold Conftest._wrapped_get. cbv zeta.
    replace (Z.to_nat (retries_for proxies url + 1)) with 0%nat by lia. simpl.
    unfold Conftest.record_request. rewrite stats_of_insert. simpl.
    rewrite app_nil_r.
    split; [reflexivity|]. split; [reflexivity|]. split; [|split].
    + intros h Hh. rewrite lookup_insert_ne by congruence. reflexivity.
    + intros Hpos. lia.
    + intros _. repeat split; reflexivity.
  - unfold Conftest._wrapped_get. cbv zeta.
    destruct (attempts_first_stop url (retries_for proxies url)
                (Z.to_nat (retries_for proxies url + 1)) 0 (record_request url monitor))
      as (k & Hk & _ & _ & Hrun); [lia | lia |].
    simpl in Hrun. rewrite Hrun. simpl.
    destruct (failures_stats url k 0 (record_request url monitor)) as [Hs Ho].
    assert (Hafter :
      stats_of (record_response url (elapsed k)
                  (failures url 0 k (record_request url monitor)))
        (netloc_from_url url)
      = {| count := count (stats_of monitor (netloc_from_url url)) + 1;
           retries := retries (stats_of monitor (netloc_from_url url)) + Z.of_nat k;
           times := (times (stats_of monitor (netloc_from_url url))
                     ++ map elapsed (seq 0 (S k)))%list |}).
    { unfold Conftest.record_response at 1. rewrite stats_of_insert, Hs.
      unfold Conftest.record_request. rewrite stats_of_insert. simpl. f_equal.
      rewrite <- app_assoc. f_equal.
      change (elapsed 0 :: map elapsed (seq 1 k)) with (map elapsed (seq 0 (S k))).
      rewrite seq_S, map_app. reflexivity. }
    rewrite Hafter. simpl.
    split; [reflexivity|]. split; [reflexivity|]. split; [|split].
    + intros h Hh. unfold Conftest.record_response at 1.
      rewrite lookup_insert_ne by congruence. rewrite Ho by exact Hh.
      unfold Conftest.record_request. rewrite lookup_insert_ne by congruence.
      reflexivity.
    + intros _. split; [lia|]. split; [f_equal; lia|].
      f_equal. lia.
    + intros Hneg. lia.
Qed.

Lemma wrapped_get_at (proxies : option Proxies) (url : string) (monitor : Monitor)
    (k : nat) :
  Z.of_nat k <= retries_for proxies url ->
  (forall j, (j < k)%nat -> stops (retries_for proxies url) j (do_request j) = false) ->
  stops (retries_for proxies url) k (do_request k) = true ->
  invoked (_wrapped_get proxies url monitor) = S k /\
  outcome (_wrapped_get proxies url monitor) = do_request k /\
  slept (_wrapped_get proxies url monitor) = repeat error_wait_seconds k.
Proof.
  intros Hk Hbefore Hstop. unfold Conftest._wrapped_get. cbv zeta.
  destruct (attempts_first_stop url (retries_for proxies url)
              (Z.to_nat (retries_for proxies url + 1)) 0 (record_request url monitor))
    as (k' & Hk' & Hstop' & Hbefore' & Hrun); [lia | lia |].
  simpl in Hstop', Hbefore', Hrun. rewrite Hrun. simpl.
  assert (k' = k) as ->; [|auto].
  destruct (Nat.lt_trichotomy k' k) as [Hlt|[Heq|Hgt]]; [|exact Heq|].
  - rewrite (Hbefore k' Hlt) in Hstop'. discriminate.
  - rewrite (Hbefore' k Hgt) in Hstop. discriminate.
Qed.

End Facts.

Section Proxy.

Variable Seconds : Type.
Variable netloc_from_url : string -> string.
Variable max_retries : Z.
Variable error_wait_seconds : Seconds.
Variable no_retries_for_hosts : gset string.

Abbreviation retries_of :=
  (Conftest.retries_for netloc_from_url max_retries no_retries_for_hosts).
Abbreviation proxy_get_text :=
  (Conftest.get_text Seconds netloc_from_url max_retries error_wait_seconds
     no_retries_for_hosts).
Abbreviation proxy_get_json :=
  (Conftest.get_json Seconds netloc_from_url max_retries error_wait_seconds
     no_retries_for_hosts).

(** The retry policy of the proxy, for [get_text] and [get_json] alike.
    An HTTP error of the adapter with a status other than 429 is raised
    again at once, without a retry.  While the adapter answers 429 or
    fails in another way, the request is made again after a sleep, so a
    text returned after [k] failures, [k] not above the retries allowed,
    is the result after [k] sleeps; and when no attempt succeeds, the
    error of the attempt number [retries] is the result. *)
Theorem proxy_retry_policy (self : AdapterProxy Seconds) (elapsed : nat -> Seconds)
    (url : string) (timeout : Seconds) (headers : Headers)
    (monitor : gmap string (HostStats Seconds)) :
  0 <= retries_of (proxies Seconds self) url ->
  let text_run := proxy_get_text self elapsed url timeout headers monitor in
  let json_run := proxy_get_json self elapsed url timeout headers monitor in
  let answer i := adapter_get_text Seconds (adapter Seconds self) i url timeout headers in
  let parsed i := adapter_get_json Seconds (adapter Seconds self) i url timeout headers in
  let retryable (A : Type) (r : Outcome A) :=
    match r with
    | Returns _ => False
    | Raises (AdapterHTTPError _ status_code _) => status_code = 429
    | _ => True
    end in
  (forall m code body,
     answer 0%nat = Raises (AdapterHTTPError m code body) -> code <> 429 ->
     invoked text_run = 1%nat /\ slept text_run = [] /\
     outcome text_run = Raises (AdapterHTTPError m code body)) /\
  (forall m code body,
     parsed 0%nat = Raises (AdapterHTTPError m code body) -> code <> 429 ->
     invoked json_run = 1%nat /\ slept json_run = [] /\
     outcome json_run = Raises (AdapterHTTPError m code body)) /\
  (forall (k : nat) (text : string),
     Z.of_nat k <= retries_of (proxies Seconds self) url ->
     (forall j, (j < k)%nat -> retryable string (answer j)) ->
     answer k = Returns text ->
     invoked text_run = S k /\ slept text_run = repeat error_wait_seconds k /\
     outcome text_run = Returns text) /\
  ((forall j, retryable string (answer j)) ->
   invoked text_run = S (Z.to_nat (retries_of (proxies Seconds self) url)) /\
   outcome text_run = answer (Z.to_nat (retries_of (proxies Seconds self) url))).
Proof.
  intros Hretries text_run json_run answer parsed retryable.
  assert (Hretry : forall (A : Type) (r : Outcome A) (j : nat),
            retryable A r -> Z.of_nat j <> retries_of (proxies Seconds self) url ->
            stops A (retries_of (proxies Seconds self) url) j r = false).
  { intros A r j Hr Hj. apply Z.eqb_neq in Hj. unfold stops.
    destruct r as [a|[| | | |m code body]|e]; simpl in Hr; try contradiction;
      rewrite ?Hj; try reflexivity.
    subst code. reflexivity. }
  split; [|split; [|split]].
  - intros m code body Hanswer Hcode.
    destruct (wrapped_get_at Seconds netloc_from_url max_retries error_wait_seconds
                no_retries_for_hosts string answer elapsed
                (proxies Seconds self) url monitor 0) as (H1 & H2 & H3);
      [lia | intros j Hj; lia | |].
    + rewrite Hanswer. simpl. apply Z.eqb_neq in Hcode. rewrite Hcode.
      apply orb_true_r.
    + rewrite <- Hanswer. auto.
  - intros m code body Hparsed Hcode.
    destruct (wrapped_get_at Seconds netloc_from_url max_retries error_wait_seconds
                no_retries_for_hosts Json parsed elapsed
                (proxies Seconds self) url monitor 0) as (H1 & H2 & H3);
      [lia | intros j Hj; lia | |].
    + rewrite Hparsed. simpl. apply Z.eqb_neq in Hcode. rewrite Hcode.
      apply orb_true_r.
    + rewrite <- Hparsed. auto.
  - intros k text Hk Hbefore Hanswer.
    destruct (wrapped_get_at Seconds netloc_from_url max_retries error_wait_seconds
                no_retries_for_hosts string answer elapsed
                (proxies Seconds self) url monitor k) as (H1 & H2 & H3);
      [exact Hk | | |].
    + intros j Hj. apply Hretry; [auto | lia].
    + rewrite Hanswer. reflexivity.
    + rewrite <- Hanswer. auto.
  - intros Hall.
    destruct (wrapped_get_at Seconds netloc_from_url max_retries error_wait_seconds
                no_retries_for_hosts string answer elapsed
                (proxies Seconds self) url monitor
                (Z.to_nat (retries_of (proxies Seconds self) url))) as (H1 & H2 & H3);
      [lia | | |].
    + intros j Hj. apply Hretry; [auto | lia].
    + apply stops_last. lia.
    + auto.
Qed.

End Proxy.

(** The host of a URL with the scheme [https] or [http], for the
    examples. *)
Fixpoint until_slash (s : string) : string :=
  match s with
  | EmptyString => EmptyString
  | String c s' => if Ascii.eqb c "/"%char then EmptyString else String c (until_slash s')
  end.

Definition sample_netloc (url : string) : string :=
  if Py.startswith "https://" url
  then until_slash (String.substring 8 (String.length url - 8) url)
  else if Py.startswith "http://" url
  then until_slash (String.substring 7 (String.length url - 7) url)
  else EmptyString.

Definition too_many_requests : GeopyError :=
  AdapterHTTPError "Non-successful status code" 429 (Some "slow down").

(** An adapter that answers 429 twice and then the text [ok]. *)
Definition throttled_adapter : Adapter Z :=
  {| adapter_get_json := fun i _ _ _ =>
       if (i <? 2)%nat then Raises too_many_requests else Returns JNull;
     adapter_get_text := fun i _ _ _ =>
       if (i <? 2)%nat then Raises too_many_requests else Returns "ok" |}.

Definition throttled_proxy (proxies : option Proxies) : AdapterProxy Z :=
  Conftest.__init__ Z proxies None (fun _ _ => throttled_adapter).

Lemma wrapped_get_stops_at_first_final_attempt_witness :
  exists k : nat,
    invoked (Conftest.get_text Z sample_netloc 2 3 ∅ (throttled_proxy None)
               (fun _ => 1) "https://example.org/search" 1 [] ∅) = S k /\
    outcome (Conftest.get_text Z sample_netloc 2 3 ∅ (throttled_proxy None)
               (fun _ => 1) "https://example.org/search" 1 [] ∅)
      = adapter_get_text Z throttled_adapter k "https://example.org/search" 1 [].
Proof.
  destruct (wrapped_get_stops_at_first_final_attempt Z sample_netloc 2 3 ∅ string
              (fun i => adapter_get_text Z throttled_adapter i
                          "https://example.org/search" 1 [])
              (fun _ => 1) None "https://example.org/search" ∅)
    as (k & _ & _ & _ & Hinvoked & Houtcome & _).
  - vm_compute. discriminate.
  - exists k. split; [exact Hinvoked | exact Houtcome].
Defined.

Lemma wrapped_get_without_attempt_witness :
  outcome (Conftest.get_text Z sample_netloc (-1) 3 ∅ (throttled_proxy None)
             (fun _ => 1) "https://example.org/search" 1 [] ∅)
    = Propagates should_not_be_reached.
Proof.
  unfold Conftest.get_text.
  rewrite (wrapped_get_without_attempt Z sample_netloc (-1) 3 ∅ string).
  - reflexivity.
  - vm_compute. reflexivity.
Defined.

Lemma wrapped_get_bookkeeping_witness :
  retries
    (Conftest.stats_of Z
       (monitor_after
          (Conftest.get_text Z sample_netloc 2 3 ∅ (throttled_proxy None)
             (fun _ => 1) "https://example.org/search" 1 [] ∅))
       "example.org") = 2 /\
  retries
    (Conftest.stats_of Z
       (monitor_after
          (Conftest.get_text Z sample_netloc (-1) 3 ∅ (throttled_proxy None)
             (fun _ => 1) "https://example.org/search" 1 [] ∅))
       "example.org") = 0.
Proof.
  split.
  - destruct (wrapped_get_bookkeeping Z sample_netloc 2 3 ∅ string
                (fun i => adapter_get_text Z throttled_adapter i
                            "https://example.org/search" 1 [])
                (fun _ => 1) None "https://example.org/search" ∅)
      as (_ & _ & _ & Hretried & _).
    destruct Hretried as (_ & Hretries & _); [vm_compute; discriminate|].
    change (sample_netloc "https://example.org/search") with "example.org"
      in Hretries.
    refine (eq_trans Hretries _). vm_compute. reflexivity.
  - destruct (wrapped_get_bookkeeping Z sample_netloc (-1) 3 ∅ string
                (fun i => adapter_get_text Z throttled_adapter i
                            "https://example.org/search" 1 [])
                (fun _ => 1) None "https://example.org/search" ∅)
      as (_ & _ & _ & _ & Hnone).
    destruct Hnone as (_ & Hretries & _); [vm_compute; reflexivity|].
    change (sample_netloc "https://example.org/search") with "example.org"
      in Hretries.
    refine (eq_trans Hretries _). vm_compute. reflexivity.
Defined.

Lemma wrapped_get_single_attempt_witness :
  outcome (Conftest.get_text Z sample_netloc 2 3 ∅
             (throttled_proxy (Some {["https" := "http://127.0.0.1:8080"]}))
             (fun _ => 1) "https://example.org/search" 1 [] ∅)
    = Raises too_many_requests.
Proof.
  unfold Conftest.get_text.
  rewrite (wrapped_get_single_attempt Z sample_netloc 2 3 ∅ string).
  - reflexivity.
  - left. vm_compute. reflexivity.
Defined.

Lemma proxy_retry_policy_witness :
  outcome (Conftest.get_text Z sample_netloc 2 3 ∅ (throttled_proxy None)
             (fun _ => 1) "https://example.org/search" 1 [] ∅) = Returns "ok" /\
  slept (Conftest.get_text Z sample_netloc 2 3 ∅ (throttled_proxy None)
           (fun _ => 1) "https://example.org/search" 1 [] ∅) = [3; 3].
Proof.
  destruct (proxy_retry_policy Z sample_netloc 2 3 ∅ (throttled_proxy None)
              (fun _ => 1) "https://example.org/search" 1 [] ∅)
    as (_ & _ & Hthen & _).
  - vm_compute. discriminate.
  - destruct (Hthen 2%nat "ok") as (_ & Hslept & Houtcome).
    + vm_compute. discriminate.
    + intros [|[|j]] Hj; [reflexivity | reflexivity | lia].
    + reflexivity.
    + split; [exact Houtcome | exact Hslept].
Defined.

End ConftestFacts.

(** ** The test harness: InjectableProxy *)

Module InjectableProxy.

Definition not_callable : PyExc :=
  Exc [OtherClass "TypeError"] ["'NoneType' object is not callable"]
      "'NoneType' object is not callable".

Section Class.

(** Factories are compared by identity ([is]). *)
Variable Factory : Type.
Context `{EqDecision Factory}.
Variable Target : Type.
Variable Kwargs : Type.
Variable Value : Type.
(** [factory( **kwargs )]: the object built, or the exception raised. *)
Variable call : Factory -> Kwargs -> PyResult Target.
(** [getattr(target, name)]. *)
Variable getattr : Target -> string -> PyResult Value.

(** The attributes of an instance; the class attribute [_cls_factory] is
    passed to the methods as [cls]. *)
Record t := {
  kwargs : Kwargs;
  _target_factory : option Factory;
  _target : option Target
}.

Definition __init__ (kwargs : Kwargs) : t :=
  {| kwargs := kwargs; _target_factory := None; _target := None |}.

(** [inject], a class method: the new value of [_cls_factory]. *)
Definition inject (factory : option Factory) (cls : option Factory) : option Factory :=
  factory.

(** The property [target]: the instance afterwards, the factories
    called, and the result. *)
Definition target (cls : option Factory) (self : t)
    : t * list Factory * PyResult Target :=
  let build :=
    match cls with
    | None => (self, [], Exn not_callable)
    | Some factory =>
        match call factory (kwargs self) with
        | Ok object =>
            ({| kwargs := kwargs self; _target_factory := Some factory;
                _target := Some object |}, [factory], Ok object)
        | Exn e => (self, [factory], Exn e)
        end
    end in
  match _target self with
  | None => build
  | Some object =>
      if bool_decide (_target_factory self = cls) then (self, [], Ok object)
      else build
  end.

Definition __getattr__ (cls : option Factory) (self : t) (name : string)
    : t * list Factory * PyResult Value :=
  let '(self, calls, r) := target cls self in
  (self, calls,
   match r with
   | Ok object => getattr object name
   | Exn e => Exn e
   end).

(** What happens to the class and to one instance. *)
Inductive Op :=
  | Inject (factory : option Factory)
  | Access
  | GetAttr (name : string).

Definition op_step (state : option Factory * t) (op : Op)
    : option Factory * t * list Factory :=
  let '(cls, self) := state in
  match op with
  | Inject factory => (inject factory cls, self, [])
  | Access => let '(self, calls, _) := target cls self in (cls, self, calls)
  | GetAttr name => let '(self, calls, _) := __getattr__ cls self name in (cls, self, calls)
  end.

Fixpoint op_run (state : option Factory * t) (ops : list Op)
    : option Factory * t * list Factory :=
  match ops with
  | [] => (state, [])
  | op :: ops' =>
      let '(state, calls) := op_step state op in
      let '(state, calls') := op_run state ops' in
      (state, (calls ++ calls')%list)
  end.

(** The cached object was built by the remembered factory from the
    arguments of the instance. *)
Definition consistent (self : t) : Prop :=
  match _target self with
  | Some object =>
      exists factory, _target_factory self = Some factory /\
                      call factory (kwargs self) = Ok object
  | None => True
  end.

Lemma target_state (cls : option Factory) (self : t) :
  consistent self ->
  consistent (target cls self).1.1 /\
  kwargs (target cls self).1.1 = kwargs self /\
  (length (target cls self).1.2 <= 1)%nat /\
  (forall factory, In factory (target cls self).1.2 -> cls = Some factory).
Proof.
  intros Hself. unfold target.
  destruct (_target self) as [object|] eqn:Htarget.
  - destruct (bool_decide (_target_factory self = cls)).
    + simpl. repeat split; [exact Hself | lia | intros f []].
    + destruct cls as [factory|]; simpl.
      * destruct (call factory (kwargs self)) as [object'|e] eqn:Hcall; simpl.
        -- repeat split; [unfold consistent; simpl; eauto | lia | intros f [<-|[]]; reflexivity].
        -- repeat split; [exact Hself | lia | intros f [<-|[]]; reflexivity].
      * repeat split; [exact Hself | lia | intros f []].
  - destruct cls as [factory|]; simpl.
    + destruct (call factory (kwargs self)) as [object'|e] eqn:Hcall; simpl.
      * repeat split; [unfold consistent; simpl; eauto | lia | intros f [<-|[]]; reflexivity].
      * repeat split; [exact Hself | lia | intros f [<-|[]]; reflexivity].
    + repeat split; [exact Hself | lia | intros f []].
Qed.

(** The target is cached.  Once an access has returned an object, every
    further access under the same injected factory returns that object,
    calls no factory and leaves the instance as it is. *)
Theorem target_cached (cls : option Factory) (self self' : t)
    (calls : list Factory) (object : Target) :
  target cls self = (self', calls, Ok object) ->
  target cls self' = (self', [], Ok object) /\
  (forall name, __getattr__ cls self' name = (self', [], getattr object name)).
Proof.
  intros H.
  assert (Hcached : target cls self' = (self', [], Ok object)).
  { unfold target in H |- *.
    destruct (_target self) as [object0|] eqn:Htarget.
    - destruct (bool_decide (_target_factory self = cls)) eqn:Hsame.
      + injection H as <- _ <-. rewrite Htarget, Hsame. reflexivity.
      + destruct cls as [factory|]; [|discriminate].
        destruct (call factory (kwargs self)) as [object'|e]; [|discriminate].
        injection H as <- _ <-. simpl.
        rewrite bool_decide_eq_true_2 by reflexivity. reflexivity.
    - destruct cls as [factory|]; [|discriminate].
      destruct (call factory (kwargs self)) as [object'|e]; [|discriminate].
      injection H as <- _ <-. simpl.
      rewrite bool_decide_eq_true_2 by reflexivity. reflexivity. }
  split; [exact Hcached|].
  intros name. unfold __getattr__. rewrite Hcached. reflexivity.
Qed.

(** The target follows the injected factory.  After another factory is
    injected, the next access calls the new factory once, with the
    arguments the instance was built with, and its object replaces the
    cached one; after [inject(None)] every access raises [TypeError] and
    calls nothing, also when an object was cached; injecting the factory
    that built the cached object again changes nothing. *)
Theorem target_follows_injected_factory (self : t) (cached : Target)
    (old : Factory) :
  _target self = Some cached -> _target_factory self = Some old ->
  (forall new object,
     new <> old -> call new (kwargs self) = Ok object ->
     target (inject (Some new) (Some old)) self =
       ({| kwargs := kwargs self; _target_factory := Some new;
           _target := Some object |}, [new], Ok object)) /\
  target (inject None (Some old)) self = (self, [], Exn not_callable) /\
  target (inject (Some old) (Some old)) self = (self, [], Ok cached).
Proof.
  intros Htarget Hfactory. unfold target, inject. rewrite Htarget, Hfactory.
  split; [|split].
  - intros new object Hnew Hcall.
    rewrite bool_decide_eq_false_2 by congruence. rewrite Hcall. reflexivity.
  - rewrite bool_decide_eq_false_2 by discriminate. reflexivity.
  - rewrite bool_decide_eq_true_2 by reflexivity. reflexivity.
Qed.

Lemma op_step_state (state : option Factory * t) (op : Op) :
  consistent state.2 ->
  consistent (op_step state op).1.2 /\
  kwargs (op_step state op).1.2 = kwargs state.2 /\
  (length (op_step state op).2 <= match op with Inject _ => 0 | _ => 1 end)%nat.
Proof.
  destruct state as [cls self]. intros Hself. simpl in Hself.
  destruct op as [factory| |name]; simpl.
  - repeat split; [exact Hself | lia].
  - destruct (target_state cls self Hself) as (Hc & Hk & Hl & _).
    destruct (target cls self) as [[self' calls] r]. simpl in *. auto.
  - destruct (target_state cls self Hself) as (Hc & Hk & Hl & _).
    unfold __getattr__. destruct (target cls self) as [[self' calls] r].
    simpl in *. auto.
Qed.

(** Over any sequence of injections, accesses and attribute reads on a
    new instance: the arguments of the instance stay those it was built
    with; a cached object is always one that the remembered factory built
    from these arguments; and the factories are called at most once for
    each access or attribute read, never by an injection. *)
Theorem proxy_invariant (kw : Kwargs) (cls : option Factory) (ops : list Op) :
  let final := op_run (cls, __init__ kw) ops in
  kwargs final.1.2 = kw /\
  consistent final.1.2 /\
  (length final.2 <=
   length (List.filter (fun op => match op with Inject _ => false | _ => true end) ops))%nat.
Proof.
  assert (Hgen : forall ops state,
    consistent state.2 ->
    kwargs (op_run state ops).1.2 = kwargs state.2 /\
    consistent (op_run state ops).1.2 /\
    (length (op_run state ops).2 <=
     length (List.filter (fun op => match op with Inject _ => false | _ => true end)
               ops))%nat).
  { clear ops. induction ops as [|op ops IH]; intros state Hstate.
    - simpl. auto.
    - simpl op_run.
      destruct (op_step_state state op Hstate) as (Hc & Hk & Hl).
      destruct (op_step state op) as [state1 calls] eqn:Hstep. simpl in Hc, Hk, Hl.
      destruct (IH state1 Hc) as (Hk' & Hc' & Hl').
      destruct (op_run state1 ops) as [state2 calls'] eqn:Hrun. simpl in *.
      split; [congruence|]. split; [exact Hc'|].
      rewrite length_app. destruct op; simpl; lia. }
  intros final. subst final. apply (Hgen ops (cls, __init__ kw)). exact I.
Qed.

End Class.

(** Factories numbered by identity; the object a factory builds records
    the factory and the arguments. *)
Definition numbered_call (factory : nat) (kw : list (string * string))
    : PyResult (nat * list (string * string)) :=
  Ok (factory, kw).

Definition attribute_name (object : nat * list (string * string)) (name : string)
    : PyResult string :=
  Ok name.

Lemma target_cached_witness :
  target nat (nat * list (string * string)) (list (string * string)) numbered_call
    (Some 1%nat)
    {| kwargs := [("user_agent", "geopy-test")]; _target_factory := Some 1%nat;
       _target := Some (1%nat, [("user_agent", "geopy-test")]) |}
  = ({| kwargs := [("user_agent", "geopy-test")]; _target_factory := Some 1%nat;
        _target := Some (1%nat, [("user_agent", "geopy-test")]) |},
     [], Ok (1%nat, [("user_agent", "geopy-test")])).
Proof.
  apply (target_cached nat (nat * list (string * string)) (list (string * string))
           string numbered_call attribute_name (Some 1%nat)
           (__init__ nat _ _ [("user_agent", "geopy-test")]) _ [1%nat]
           (1%nat, [("user_agent", "geopy-test")])).
  reflexivity.
Defined.

Lemma target_follows_injected_factory_witness :
  target nat (nat * list (string * string)) (list (string * string)) numbered_call
    (inject nat None (Some 1%nat))
    {| kwargs := [("user_agent", "geopy-test")]; _target_factory := Some 1%nat;
       _target := Some (1%nat, [("user_agent", "geopy-test")]) |}
  = ({| kwargs := [("user_agent", "geopy-test")]; _target_factory := Some 1%nat;
        _target := Some (1%nat, [("user_agent", "geopy-test")]) |},
     [], Exn not_callable).
Proof.
  apply (target_follows_injected_factory nat (nat * list (string * string))
           (list (string * string)) numbered_call
           {| kwargs := [("user_agent", "geopy-test")]; _target_factory := Some 1%nat;
              _target := Some (1%nat, [("user_agent", "geopy-test")]) |}
           (1%nat, [("user_agent", "geopy-test")]) 1%nat eq_refl eq_refl).
Defined.

End InjectableProxy.

(** ** The test harness: pretty_dict_format *)

Module PrettyDict.

Fixpoint spaces (n : nat) : string :=
  match n with
  | O => EmptyString
  | S n' => String " " (spaces n')
  end.

(** [s.ljust(width)]: [s] padded with spaces on the right; a string of
    [width] characters or more is left as it is.  Lengths are counted in
    the characters of ASCII text. *)
Definition ljust (width : nat) (s : string) : string :=
  s +:+ spaces (width - String.length s).

(** [sep.join(l)]. *)
Fixpoint join (sep : string) (l : list string) : string :=
  match l with
  | [] => EmptyString
  | [x] => x
  | x :: rest => x +:+ sep +:+ join sep rest
  end.

Definition newline : string := String "010" EmptyString.

Section Format.

Variable V : Type.
(** [value_mapper(v)] as the format [%s] writes it. *)
Variable value_mapper : V -> string.

(** The order of [sorted] on the items of a dict: keys are distinct, so
    the key decides. *)
Definition key_le (x y : string * V) : Prop := String.leb x.1 y.1 = true.

#[local] Instance key_le_dec : RelDecision key_le.
Proof. intros x y. unfold key_le. apply _. Defined.

Definition sorted_items (d : gmap string V) : list (string * V) :=
  merge_sort key_le (map_to_list d).

(** [max(len(k) for k in d.keys())]. *)
Definition max_key_len (d : gmap string V) : nat :=
  foldr Nat.max 0%nat (String.length <$> (map_to_list d).*1).

Definition item_line (item_prefix : string) (width : nat) (item : string * V) : string :=
  item_prefix +:+ ljust width item.1 +:+ value_mapper item.2.

(** The list [s] that [pretty_dict_format] joins. *)
Definition pretty_dict_lines (heading : string) (dict_to_format : gmap string V)
    (item_prefix legend : string) : list string :=
  let s := [heading] in
  let s :=
    match size dict_to_format with
    | O => (s ++ [item_prefix +:+ "-- empty --"])%list
    | S _ =>
        let max_key_len := max_key_len dict_to_format in
        let s :=
          (s ++ (item_line item_prefix (max_key_len + 2)
                   <$> sorted_items dict_to_format))%list in
        if Py.truthy legend
        then (s ++ [EmptyString; "* " +:+ legend])%list
        else s
    end in
  (s ++ [EmptyString])%list.

Definition pretty_dict_format (heading : string) (dict_to_format : gmap string V)
    (item_prefix legend : string) : string :=
  join newline (pretty_dict_lines heading dict_to_format item_prefix legend).

Lemma app_cons (c : ascii) (s t : string) : String c s +:+ t = String c (s +:+ t).
Proof. reflexivity. Qed.

Lemma length_append (s t : string) :
  String.length (s +:+ t) = (String.length s + String.length t)%nat.
Proof.
  induction s as [|c s IH]; [reflexivity|].
  rewrite app_cons. simpl. rewrite IH. reflexivity.
Qed.

Lemma length_spaces (n : nat) : String.length (spaces n) = n.
Proof. induction n as [|n IH]; simpl; [reflexivity|]. rewrite IH. reflexivity. Qed.

Lemma length_ljust (width : nat) (s : string) :
  String.length (ljust width s) = Nat.max width (String.length s).
Proof. unfold ljust. rewrite length_append, length_spaces. lia. Qed.

Lemma key_len_le_max (d : gmap string V) (k : string) (v : V) :
  d !! k = Some v -> (String.length k <= max_key_len d)%nat.
Proof.
  intros H. apply elem_of_map_to_list in H. unfold max_key_len.
  induction (map_to_list d) as [|[k' v'] l IH]; [inversion H|].
  rewrite !fmap_cons. cbn [foldr fst].
  apply elem_of_cons in H as [[= <- <-]|H]; [lia|].
  specialize (IH H). lia.
Qed.

Lemma append_nil_r (s : string) : s +:+ EmptyString = s.
Proof. induction s as [|c s IH]; [reflexivity|]. rewrite app_cons, IH. reflexivity. Qed.

Lemma append_assoc (s t u : string) : (s +:+ t) +:+ u = s +:+ (t +:+ u).
Proof.
  induction s as [|c s IH]; [reflexivity|]. rewrite !app_cons, IH. reflexivity.
Qed.

Lemma join_trailing (sep : string) (l : list string) :
  l <> [] -> join sep (l ++ [EmptyString]) = join sep l +:+ sep.
Proof.
  induction l as [|x [|y l] IH]; intros Hl; [contradiction| |].
  - change (x +:+ sep +:+ EmptyString = x +:+ sep).
    rewrite append_nil_r. reflexivity.
  - change (x +:+ sep +:+ join sep ((y :: l) ++ [EmptyString])
            = (x +:+ sep +:+ join sep (y :: l)) +:+ sep).
    rewrite IH by discriminate. rewrite !append_assoc. reflexivity.
Qed.

Lemma sorted_items_length (d : gmap string V) :
  length (sorted_items d) = size d.
Proof.
  unfold sorted_items.
  rewrite (Permutation_length (merge_sort_Permutation key_le (map_to_list d))).
  apply length_map_to_list.
Qed.

(** The layout for a dict that is not empty.  After the heading there is
    one line for each item, in the order of the keys, each item once;
    the line of an item is the prefix, the key padded to the longest key
    plus two, and the value, so the values start in the same column on
    every line; after the items come, when there is a legend, an empty
    line and the legend after an asterisk, and then, in every case, the
    empty string that makes the trailing newline and nothing more. *)
Theorem items_sorted_and_aligned (heading : string) (d : gmap string V)
    (item_prefix legend : string) :
  size d <> 0%nat ->
  let s := pretty_dict_lines heading d item_prefix legend in
  let width := (max_key_len d + 2)%nat in
  s !! 0%nat = Some heading /\
  length s = (size d + 2 + if Py.truthy legend then 2 else 0)%nat /\
  drop (S (size d)) s =
    (if Py.truthy legend
     then [EmptyString; "* " +:+ legend; EmptyString]
     else [EmptyString]) /\
  Sorted key_le (sorted_items d) /\
  sorted_items d ≡ₚ map_to_list d /\
  (forall (i : nat) (k : string) (v : V),
     sorted_items d !! i = Some (k, v) ->
     d !! k = Some v /\
     s !! S i = Some (item_prefix +:+ ljust width k +:+ value_mapper v) /\
     String.length (ljust width k) = width) /\
  last s = Some EmptyString.
Proof.
  intros Hsize s width. subst s width. unfold pretty_dict_lines.
  destruct (size d) as [|n] eqn:Hn; [contradiction|]. cbv zeta.
  assert (Hlen := sorted_items_length d). rewrite Hn in Hlen.
  split; [destruct (Py.truthy legend); reflexivity|]. split.
  - destruct (Py.truthy legend); rewrite !length_app, ?length_app, length_fmap, Hlen;
      simpl; lia.
  - split.
    { assert (Hitems : length ([heading] ++ (item_line item_prefix (max_key_len d + 2)
                                  <$> sorted_items d))%list = S (S n))
        by (rewrite length_app, length_fmap, Hlen; reflexivity).
      destruct (Py.truthy legend).
      - rewrite <- (app_assoc _ [EmptyString; "* " +:+ legend] [EmptyString]).
        rewrite drop_app_length' by (symmetry; exact Hitems). reflexivity.
      - rewrite drop_app_length' by (symmetry; exact Hitems). reflexivity. }
    split.
    + apply Sorted_merge_sort. intros x y. apply String.leb_total.
    + split; [apply merge_sort_Permutation|]. split.
      * intros i k v Hi.
        assert (Hd : d !! k = Some v).
        { apply elem_of_map_to_list.
          rewrite <- (merge_sort_Permutation key_le (map_to_list d)).
          apply list_elem_of_lookup. eauto. }
        split; [exact Hd|]. split.
        -- assert (Hline : ([heading] ++ (item_line item_prefix (max_key_len d + 2)
                               <$> sorted_items d))%list !! S i
                           = Some (item_prefix +:+ ljust (max_key_len d + 2) k
                                   +:+ value_mapper v)).
           { simpl. rewrite list_lookup_fmap, Hi. reflexivity. }
           destruct (Py.truthy legend).
           ++ rewrite <- app_assoc. apply lookup_app_l_Some. exact Hline.
           ++ apply lookup_app_l_Some. exact Hline.
        -- rewrite length_ljust. pose proof (key_len_le_max d k v Hd). lia.
      * rewrite last_snoc. reflexivity.
Qed.

(** The result as a string.  It is the heading, a newline, a body and a
    trailing newline.  For an empty dict the body is the prefix and the
    marker [-- empty --], and the legend is left out. *)
Theorem format_frame (heading : string) (d : gmap string V)
    (item_prefix legend : string) :
  (exists body,
     pretty_dict_format heading d item_prefix legend =
       heading +:+ newline +:+ body +:+ newline) /\
  (size d = 0%nat ->
   pretty_dict_format heading d item_prefix legend =
     heading +:+ newline +:+ (item_prefix +:+ "-- empty --") +:+ newline).
Proof.
  assert (Hframe : forall middle : list string,
    middle <> [] ->
    join newline (([heading] ++ middle) ++ [EmptyString]) =
      heading +:+ newline +:+ join newline middle +:+ newline).
  { intros middle Hmiddle. rewrite join_trailing by (simpl; discriminate).
    destruct middle as [|x middle]; [contradiction|].
    change (join newline ([heading] ++ x :: middle))
      with (heading +:+ newline +:+ join newline (x :: middle)).
    rewrite !append_assoc. reflexivity. }
  unfold pretty_dict_format, pretty_dict_lines. cbv zeta.
  destruct (size d) as [|n] eqn:Hn.
  - split; [eexists|intros _]; apply (Hframe [item_prefix +:+ "-- empty --"]);
      discriminate.
  - split; [|discriminate].
    assert (Hitems : sorted_items d <> []).
    { intros Hnil. pose proof (sorted_items_length d) as Hl.
      rewrite Hnil, Hn in Hl. discriminate. }
    destruct (Py.truthy legend).
    + rewrite <- (app_assoc [heading] _ [EmptyString; "* " +:+ legend]).
      eexists. apply Hframe.
      destruct (sorted_items d); [contradiction|discriminate].
    + eexists. apply Hframe.
      destruct (sorted_items d); [contradiction|discriminate].
Qed.

End Format.

(** The requests counted for two hosts. *)
Definition counted : gmap string nat :=
  {["nominatim.org" := 3%nat; "example.org" := 1%nat]}.

Lemma items_sorted_and_aligned_witness :
  drop 3 (pretty_dict_lines nat (fun n => "count") "Requests" counted "  " "legend")
    = [EmptyString; "* legend"; EmptyString].
Proof.
  destruct (items_sorted_and_aligned nat (fun n => "count") "Requests"
              counted "  " "legend")
    as (_ & _ & Hrest & _).
  - vm_compute. discriminate.
  - change 3%nat with (S (size counted)). exact Hrest.
Defined.

End PrettyDict.
